(** * Support agent: retrieval, classification and response pipeline

    A shallow embedding of [knowledge_base.py], [ticket_classifier.py] and
    [response_generator.py].

    The three modules are glue code over third-party services: the Chroma
    vector store, the directory loader and text splitter, the Groq chat
    model and LangChain's output parsers.  None of these is part of the
    repository, so they are not given an implementation here.  They are
    gathered in one record, [Env], whose fields answer each external call
    from the history of the calls made so far; every theorem about the
    repository's own code is stated for an arbitrary [Env].  Concrete
    environments (small in-memory stand-ins) appear only where a statement
    has to be evaluated on an input.

    Python exceptions are modelled by the [Raise] constructor of [Result];
    the fields of the [KnowledgeBase] object and the log of external calls
    are threaded through a state-and-exception monad [M]. *)

From Stdlib Require Import String Ascii List ZArith QArith Lia.
From stdpp Require Import gmap strings.
Import ListNotations.

Set Warnings "-register-all".
Local Open Scope string_scope.
Local Open Scope Z_scope.

(** ** Python values, exceptions and outcomes *)

(** The values that travel through the pipeline: what [json.loads] can
    produce, used for chain inputs and outputs and for metadata entries.
    A Python [float] is represented by a rational; the development only
    compares such numbers with 0 and 1. *)
Inductive pyval :=
| PNone
| PBool (b : bool)
| PInt (z : Z)
| PFloat (q : Q)
| PStr (s : string)
| PList (l : list pyval)
| PDict (d : list (string * pyval)).

(** A raised exception: its class name and its message. *)
Record Exn := mkExn { exn_class : string; exn_message : string }.

Inductive Result (A : Type) :=
| Ok (a : A)
| Raise (e : Exn).
Arguments Ok {A} a.
Arguments Raise {A} e.

Definition raises_class {A} (r : Result A) (cls : string) : Prop :=
  exists msg, r = Raise (mkExn cls msg).

(** [d.get(key, dflt)] on a dict that came out of the JSON parser. *)
Fixpoint dict_get (d : list (string * pyval)) (key : string) : option pyval :=
  match d with
  | [] => None
  | (k, v) :: rest => if String.eqb k key then Some v else dict_get rest key
  end.

(** ** Documents and the objects of the third-party libraries *)

(** LangChain's [Document]: text plus a metadata dict. *)
Record Document := mkDocument {
  page_content : string;
  metadata : gmap string pyval
}.

(** [HuggingFaceEmbeddings(model_name=..., model_kwargs={'device': ...})]. *)
Record HuggingFaceEmbeddings := mkEmbeddings {
  emb_model_name : string;
  emb_device : string
}.

(** [ChatGroq(model_name=..., temperature=...)]; the API key comes from the
    process environment and plays no part below. *)
Record ChatGroq := mkChatGroq {
  llm_model_name : string;
  llm_temperature : Q
}.

(** A pydantic model as declared: field name, annotated type, description. *)
Inductive FieldType := TStr | TFloat.
Record FieldDecl := mkField {
  fld_name : string;
  fld_type : FieldType;
  fld_description : string
}.
Definition Schema := list FieldDecl.

(** [ChatPromptTemplate.from_messages([...])], possibly [.partial(...)]. *)
Record ChatPromptTemplate := mkPrompt {
  prompt_messages : list (string * string);
  prompt_partial : list (string * string)
}.

(** A Chroma instance is known by its object identity. *)
Definition Handle := nat.

(** The external calls a run performs, in the order they are made. *)
Inductive Event :=
| EvChroma (persist_directory : string) (embedding_function : HuggingFaceEmbeddings)
| EvFromDocuments (documents : list Document) (embedding : HuggingFaceEmbeddings)
    (persist_directory : string)
| EvSimilaritySearch (store : Handle) (query : string) (k : Z)
| EvDirectoryLoad (path glob : string)
| EvChatInvoke (llm : ChatGroq) (prompt : ChatPromptTemplate)
    (inputs : list (string * pyval)).

(** The third-party services.  Each answer may depend on the calls made
    before it (the first argument), so stores with state on disk and a
    sampling language model are both covered. *)
Record Env := mkEnv {
  Chroma_init : list Event -> string -> HuggingFaceEmbeddings -> Result Handle;
  Chroma_from_documents :
    list Event -> list Document -> HuggingFaceEmbeddings -> string -> Result Handle;
  (* truth value of a store object, as tested by [not store] *)
  Chroma_bool : list Event -> Handle -> bool;
  Chroma_similarity_search :
    list Event -> Handle -> string -> Z -> Result (list Document);
  DirectoryLoader_load : list Event -> string -> string -> Result (list Document);
  (* RecursiveCharacterTextSplitter(chunk_size, chunk_overlap, len).split_documents *)
  split_documents : Z -> Z -> list Document -> Result (list Document);
  ChatGroq_invoke :
    list Event -> ChatGroq -> ChatPromptTemplate -> list (string * pyval) ->
    Result string;
  (* JsonOutputParser(pydantic_object=schema).parse *)
  JsonOutputParser_parse : Schema -> string -> Result pyval;
  get_format_instructions : Schema -> string;
  os_path_exists : list Event -> string -> bool
}.

(** ** The state of a run and its monad *)

(** [class KnowledgeBase]: the fields set by [__init__]. *)
Record KnowledgeBase := mkKnowledgeBase {
  persist_directory : string;
  embeddings : HuggingFaceEmbeddings;
  vectorstore : option Handle
}.

Record World := mkWorld {
  knowledge_base : KnowledgeBase;
  trace : list Event
}.

Definition M (A : Type) : Type := World -> Result A * World.

Definition ret {A} (a : A) : M A := fun w => (Ok a, w).

Definition bind {A B} (m : M A) (f : A -> M B) : M B :=
  fun w =>
    match m w with
    | (Ok a, w') => f a w'
    | (Raise e, w') => (Raise e, w')
    end.

Notation "'let*' x ':=' m 'in' f" := (bind m (fun x => f))
  (at level 10, x name, m at level 100, f at level 200).

(** An external call: the service answers from the history, and the call
    is appended to the log whether it returns or raises. *)
Definition call {A} (ev : Event) (answer : list Event -> Result A) : M A :=
  fun w => (answer (trace w), mkWorld (knowledge_base w) (trace w ++ [ev])).

Definition get_kb : M KnowledgeBase := fun w => (Ok (knowledge_base w), w).

Definition set_vectorstore (h : Handle) : M unit :=
  fun w =>
    let kb := knowledge_base w in
    (Ok tt, mkWorld (mkKnowledgeBase (persist_directory kb) (embeddings kb) (Some h))
                    (trace w)).

Definition raise {A} (e : Exn) : M A := fun w => (Raise e, w).

(** ** knowledge_base.py *)

Section KnowledgeBaseMethods.
Variable E : Env.

(** [KnowledgeBase.__init__(persist_directory="./chroma_db")]. *)
Definition KnowledgeBase_init (dir : string) : KnowledgeBase :=
  {| persist_directory := dir;
     embeddings := mkEmbeddings "sentence-transformers/all-MiniLM-L6-v2" "cpu";
     vectorstore := None |}.

Definition default_persist_directory : string := "./chroma_db".

(** [load_documents(docs_path="./support_docs")]: load the [*.txt] files
    and hand them to the splitter configured with 800 and 100. *)
Definition load_documents (docs_path : string) : M (list Document) :=
  let* documents :=
    call (EvDirectoryLoad docs_path "*.txt")
         (fun tr => DirectoryLoader_load E tr docs_path "*.txt") in
  fun w => (split_documents E 800 100 documents, w).

(** [create_vectorstore(documents)]. *)
Definition create_vectorstore (documents : list Document) : M unit :=
  let* kb := get_kb in
  let* h :=
    call (EvFromDocuments documents (embeddings kb) (persist_directory kb))
         (fun tr => Chroma_from_documents E tr documents (embeddings kb)
                      (persist_directory kb)) in
  set_vectorstore h.

(** [load_vectorstore()]. *)
Definition load_vectorstore : M unit :=
  let* kb := get_kb in
  let* h :=
    call (EvChroma (persist_directory kb) (embeddings kb))
         (fun tr => Chroma_init E tr (persist_directory kb) (embeddings kb)) in
  set_vectorstore h.

(** Python's truth test on the [vectorstore] field: [None] is false, an
    object is whatever its [__bool__]/[__len__] says. *)
Definition truthy (tr : list Event) (v : option Handle) : bool :=
  match v with
  | None => false
  | Some h => Chroma_bool E tr h
  end.

(** [search(query, k=3)]. *)
Definition search (query : string) (k : Z) : M (list Document) :=
  let* _ :=
    (fun w =>
       if negb (truthy (trace w) (vectorstore (knowledge_base w)))
       then load_vectorstore w
       else (Ok tt, w)) in
  let* kb := get_kb in
  match vectorstore kb with
  | Some h =>
      call (EvSimilaritySearch h query k)
           (fun tr => Chroma_similarity_search E tr h query k)
  | None =>
      raise (mkExn "AttributeError"
               "'NoneType' object has no attribute 'similarity_search'")
  end.

Definition search_default (query : string) : M (list Document) := search query 3.

End KnowledgeBaseMethods.

(** ** ticket_classifier.py *)

(** [class TicketClassification(BaseModel)]: three [str] fields and one
    [float] field; the admissible values are named in the descriptions
    only. *)
Definition TicketClassification : Schema :=
  [ mkField "category" TStr "Category: billing, technical, general, account";
    mkField "priority" TStr "Priority: low, medium, high, urgent";
    mkField "sentiment" TStr "Sentiment: positive, neutral, negative";
    mkField "confidence" TFloat "Confidence score 0-1" ].

(** What the declared annotations demand of a value: a [str] field holds a
    string, a [float] field a number. *)
Definition has_type (t : FieldType) (v : pyval) : bool :=
  match t, v with
  | TStr, PStr _ => true
  | TFloat, PFloat _ => true
  | TFloat, PInt _ => true
  | _, _ => false
  end.

Definition conforms (s : Schema) (v : pyval) : bool :=
  match v with
  | PDict d =>
      forallb (fun f => match dict_get d (fld_name f) with
                        | Some x => has_type (fld_type f) x
                        | None => false
                        end) s
  | _ => false
  end.

Inductive OutputParser :=
| JsonOutputParser (pydantic_object : Schema)
| StrOutputParser.

(** [prompt | llm | parser]. *)
Record Chain := mkChain {
  chain_prompt : ChatPromptTemplate;
  chain_llm : ChatGroq;
  chain_parser : OutputParser
}.

Definition classifier_system_prompt : string :=
"You are a customer support ticket classifier. 
        Analyze tickets and categorize them:
        
        Categories:
        - billing: Payment, refunds, charges, invoices
        - technical: Bugs, features not working, errors
        - account: Login, password, profile issues
        - general: Questions, feedback, other

        Priority levels:
        - urgent: Service down, billing errors, security issues
        - high: Features broken, important account issues
        - medium: Minor bugs, general questions
        - low: Feature requests, general feedback

        {format_instructions}".

Section Chains.
Variable E : Env.

(** [chain.invoke(inputs)]: the prompt and its inputs go to the model once;
    the reply text goes through the parser once. *)
Definition invoke (c : Chain) (inputs : list (string * pyval)) : M pyval :=
  let* text :=
    call (EvChatInvoke (chain_llm c) (chain_prompt c) inputs)
         (fun tr => ChatGroq_invoke E tr (chain_llm c) (chain_prompt c) inputs) in
  match chain_parser c with
  | JsonOutputParser schema => fun w => (JsonOutputParser_parse E schema text, w)
  | StrOutputParser => ret (PStr text)
  end.

(** [create_classifier()]. *)
Definition create_classifier : Chain :=
  let llm := mkChatGroq "llama-3.3-70b-versatile" (1 # 10) in
  let parser := JsonOutputParser TicketClassification in
  let prompt :=
    mkPrompt [ ("system", classifier_system_prompt);
               ("user", "Ticket: {ticket_text}") ]
             [ ("format_instructions",
                get_format_instructions E TicketClassification) ] in
  mkChain prompt llm parser.

(** [classifier.invoke({"ticket_text": ticket})], the call made by
    [generate_response] and by the module's own test loop. *)
Definition classify (ticket_text : string) : M pyval :=
  invoke create_classifier [ ("ticket_text", PStr ticket_text) ].

End Chains.

(** ** response_generator.py *)

Definition response_system_prompt : string :=
"You are a customer support agent. Use ONLY the provided context to answer.
            
            Rules:
            - Be empathetic and professional
            - If billing issue, be extra careful with specifics
            - If urgent, acknowledge immediately
            - If context doesn't contain the answer, say so and offer to escalate
            
            Context: {context}
            Classification: {classification}".

(** The line feed, for the separator of [join]. *)
Definition nl : string := String (ascii_of_nat 10) EmptyString.

(** The dict returned by [generate_response]. *)
Record TicketResult := mkTicketResult {
  response : pyval;
  classification : pyval;
  sources : list pyval
}.

(** [doc.metadata.get("source", "unknown")]. *)
Definition source_of (doc : Document) : pyval :=
  default (PStr "unknown") (metadata doc !! "source").

Section ResponseGenerator.
Variable E : Env.

(** The fields set by [ResponseGenerator.__init__]; the [KnowledgeBase] it
    creates lives in the [World]. *)
Definition rg_llm : ChatGroq := mkChatGroq "llama-3.3-70b-versatile" (3 # 10).

Definition rg_classifier : Chain := create_classifier E.

Definition response_prompt : ChatPromptTemplate :=
  mkPrompt [ ("system", response_system_prompt);
             ("user", "Customer: {question}") ]
           [].

Definition rg_chain : Chain := mkChain response_prompt rg_llm StrOutputParser.

Definition ResponseGenerator_init : World :=
  mkWorld (KnowledgeBase_init default_persist_directory) [].

(** The inputs of the response chain for a classification, the retrieved
    documents and the ticket. *)
Definition response_inputs (classification : pyval) (relevant_docs : list Document)
    (ticket_text : string) : list (string * pyval) :=
  [ ("context", PStr (String.concat (nl +:+ nl) (map page_content relevant_docs)));
    ("classification", classification);
    ("question", PStr ticket_text) ].

(** [generate_response(ticket_text)]. *)
Definition generate_response (ticket_text : string) : M TicketResult :=
  let* classification := invoke E rg_classifier [ ("ticket_text", PStr ticket_text) ] in
  let* relevant_docs := search E ticket_text 5 in
  let* response :=
    invoke E rg_chain (response_inputs classification relevant_docs ticket_text) in
  ret {| response := response;
         classification := classification;
         sources := map source_of relevant_docs |}.

End ResponseGenerator.

(** ** Sequences of calls on one KnowledgeBase *)

(** The methods of [KnowledgeBase] as calls on an instance. *)
Inductive KBCall :=
| CallLoadDocuments (docs_path : string)
| CallCreateVectorstore (documents : list Document)
| CallLoadVectorstore
| CallSearch (query : string) (k : Z).

(** The world after a call, whether it returned or raised. *)
Definition exec (E : Env) (c : KBCall) (w : World) : World :=
  match c with
  | CallLoadDocuments p => snd (load_documents E p w)
  | CallCreateVectorstore docs => snd (create_vectorstore E docs w)
  | CallLoadVectorstore => snd (load_vectorstore E w)
  | CallSearch q k => snd (search E q k w)
  end.


Definition is_attach (ev : Event) : bool :=
  match ev with EvChroma _ _ => true | _ => false end.

Definition is_chat (ev : Event) : bool :=
  match ev with EvChatInvoke _ _ _ => true | _ => false end.

Definition is_store_creation (ev : Event) : bool :=
  match ev with EvChroma _ _ | EvFromDocuments _ _ _ => true | _ => false end.

(** How many times a store was attached from disk, and how many times a
    chat model was invoked, in a log. *)
Definition count_attach (tr : list Event) : nat := length (List.filter is_attach tr).
Definition count_chat (tr : list Event) : nat := length (List.filter is_chat tr).

(** ** The contracts of the specification, stated on values *)

Definition str_in (allowed : list string) (v : option pyval) : bool :=
  match v with
  | Some (PStr s) => existsb (String.eqb s) allowed
  | _ => false
  end.

Definition unit_interval (v : option pyval) : bool :=
  match v with
  | Some (PFloat q) => Qle_bool 0 q && Qle_bool q 1
  | Some (PInt z) => (0 <=? z) && (z <=? 1)
  | _ => false
  end.

(** A Classification as the specification defines it: the four fields
    inside their enumerated or bounded domains. *)
Definition in_domain (v : pyval) : bool :=
  match v with
  | PDict d =>
      str_in ["billing"; "technical"; "account"; "general"] (dict_get d "category")
      && str_in ["low"; "medium"; "high"; "urgent"] (dict_get d "priority")
      && str_in ["positive"; "neutral"; "negative"] (dict_get d "sentiment")
      && unit_interval (dict_get d "confidence")
  | _ => false
  end.

(** The retry policy as the specification words it: an output that fails
    validation is followed by one more generation call with the same
    input, and a second failure surfaces [ClassificationError] with the
    raw output attached. *)
Definition spec_classify (E : Env) (ticket_text : string) : M pyval :=
  let c := create_classifier E in
  let inputs := [ ("ticket_text", PStr ticket_text) ] in
  let generate :=
    call (EvChatInvoke (chain_llm c) (chain_prompt c) inputs)
         (fun tr => ChatGroq_invoke E tr (chain_llm c) (chain_prompt c) inputs) in
  let* text := generate in
  match JsonOutputParser_parse E TicketClassification text with
  | Ok v => ret v
  | Raise _ =>
      let* text' := generate in
      match JsonOutputParser_parse E TicketClassification text' with
      | Ok v => ret v
      | Raise _ => raise (mkExn "ClassificationError" text')
      end
  end.

(** ** An in-memory stand-in for the services *)

(** A stand-in is fixed by the documents its store holds, the successive
    replies of its chat model and the reading its JSON parser gives of a
    reply text.  Its store object tests true, as any object whose class
    defines no truth value does; attaching to a directory never fails and
    brings the directory into existence; a search for [k <= 0] documents
    is refused with the exception the Chroma client raises for such a
    number of results, and a search for more returns the first [k] stored
    documents.  Reply texts are keys into the parser's table. *)
Record Stub := mkStub {
  stub_corpus : list Document;
  stub_replies : list string;
  stub_json : list (string * pyval)
}.

Fixpoint assoc {A} (l : list (string * A)) (key : string) : option A :=
  match l with
  | [] => None
  | (k, v) :: rest => if String.eqb k key then Some v else assoc rest key
  end.

Definition stub_env (s : Stub) : Env :=
  {| Chroma_init := fun tr _ _ => Ok (length tr);
     Chroma_from_documents := fun tr _ _ _ => Ok (length tr);
     Chroma_bool := fun _ _ => true;
     Chroma_similarity_search :=
       fun _ _ _ k =>
         if k <=? 0
         then Raise (mkExn "TypeError"
                       "Number of requested results cannot be negative, or zero.")
         else Ok (firstn (Z.to_nat k) (stub_corpus s));
     DirectoryLoader_load := fun _ _ _ => Ok (stub_corpus s);
     split_documents := fun _ _ docs => Ok docs;
     ChatGroq_invoke :=
       fun tr _ _ _ =>
         match nth_error (stub_replies s) (count_chat tr) with
         | Some text => Ok text
         | None => Raise (mkExn "APIConnectionError" "no reply")
         end;
     JsonOutputParser_parse :=
       fun schema text =>
         match assoc (stub_json s) text with
         | Some v => if conforms schema v then Ok v
                     else Raise (mkExn "OutputParserException" text)
         | None => Raise (mkExn "OutputParserException" text)
         end;
     get_format_instructions := fun _ => "Return a JSON object.";
     os_path_exists := fun tr _ => existsb is_store_creation tr |}.

Definition refund_doc : Document :=
  mkDocument "Refunds are issued within 5 business days."
             {[ "source" := PStr "support_docs/billing.txt" ]}.

Definition cancel_doc : Document :=
  mkDocument "To cancel your subscription, go to Settings > Billing > Cancel Plan."
             {[ "source" := PStr "support_docs/account.txt" ]}.

Definition note_doc : Document :=
  mkDocument "Escalate unresolved tickets after 48 hours." ∅.

Definition billing_reply : string := "{category: billing}".
Definition billing_json : pyval :=
  PDict [ ("category", PStr "billing"); ("priority", PStr "high");
          ("sentiment", PStr "negative"); ("confidence", PFloat (9 # 10)) ].

Definition odd_reply : string := "{category: spam}".
Definition odd_json : pyval :=
  PDict [ ("category", PStr "spam"); ("priority", PStr "whenever");
          ("sentiment", PStr "furious"); ("confidence", PFloat (15 # 2)) ].

Definition stub_table : list (string * pyval) :=
  [ (billing_reply, billing_json); (odd_reply, odd_json) ].

Definition fresh : World := ResponseGenerator_init.

(** The KnowledgeBase once a store is attached, and the log entry of an
    attach. *)
Definition with_store (kb : KnowledgeBase) (h : Handle) : KnowledgeBase :=
  mkKnowledgeBase (persist_directory kb) (embeddings kb) (Some h).

Definition attach_event (kb : KnowledgeBase) : Event :=
  EvChroma (persist_directory kb) (embeddings kb).

(** The stand-ins used below: a store with three documents, an empty
    store, a model whose reply is well-formed JSON with values outside the
    documented lists, a model whose first reply is not JSON at all, and the
    same model with replies left for a second ticket. *)
Definition stub_docs : Stub :=
  mkStub [refund_doc; cancel_doc; note_doc]
         [billing_reply; "Your refund is on its way."] stub_table.

Definition stub_empty : Stub :=
  mkStub [] [billing_reply; "I could not find this; escalating."] stub_table.

Definition stub_odd : Stub :=
  mkStub [refund_doc] [odd_reply; "Hello."] stub_table.

Definition stub_flaky : Stub :=
  mkStub [refund_doc] ["Sure! Here is the JSON"; billing_reply] stub_table.

Definition stub_busy : Stub :=
  mkStub [refund_doc]
         ["Sure! Here is the JSON"; billing_reply; "Your refund is on its way."]
         stub_table.

(** A stand-in whose services can be made to fail: each flag set makes
    the corresponding call raise, and [dir_exists] says whether the
    store directory is there from the start. *)
Record Faults := mkFaults {
  build_fails : bool;
  directory_load_fails : bool;
  attach_fails : bool;
  search_fails : bool;
  dir_exists : bool
}.

Definition faulty_env (f : Faults) (s : Stub) : Env :=
  {| Chroma_init :=
       fun tr d e => if attach_fails f
                     then Raise (mkExn "ValueError" "could not connect to tenant")
                     else Chroma_init (stub_env s) tr d e;
     Chroma_from_documents :=
       fun tr docs e d => if build_fails f
                          then Raise (mkExn "OSError" "disk full")
                          else Chroma_from_documents (stub_env s) tr docs e d;
     Chroma_bool := Chroma_bool (stub_env s);
     Chroma_similarity_search :=
       fun tr h q k => if search_fails f
                       then Raise (mkExn "InternalError" "index unavailable")
                       else Chroma_similarity_search (stub_env s) tr h q k;
     DirectoryLoader_load :=
       fun tr p g => if directory_load_fails f
                     then Raise (mkExn "FileNotFoundError" p)
                     else DirectoryLoader_load (stub_env s) tr p g;
     split_documents := split_documents (stub_env s);
     ChatGroq_invoke := ChatGroq_invoke (stub_env s);
     JsonOutputParser_parse := JsonOutputParser_parse (stub_env s);
     get_format_instructions := get_format_instructions (stub_env s);
     os_path_exists := fun tr p => dir_exists f || os_path_exists (stub_env s) tr p |}.


(** The log entry of the classifier's model call for a ticket. *)
Definition classifier_event (E : Env) (ticket_text : string) : Event :=
  EvChatInvoke (chain_llm (create_classifier E)) (chain_prompt (create_classifier E))
    [ ("ticket_text", PStr ticket_text) ].

(** ** The scripts and callers around the three classes *)

(** Any sequence of method calls on one KnowledgeBase. *)
Definition run_calls (E : Env) (calls : list KBCall) (w : World) : World :=
  fold_left (fun w c => exec E c w) calls w.

Definition is_build (ev : Event) : bool :=
  match ev with EvFromDocuments _ _ _ => true | _ => false end.

Definition is_directory_load (ev : Event) : bool :=
  match ev with EvDirectoryLoad _ _ => true | _ => false end.

Definition count_events (p : Event -> bool) (tr : list Event) : nat :=
  length (List.filter p tr).

(** The [__main__] block of knowledge_base.py: a new KnowledgeBase, built
    from the documents when [./chroma_db] does not exist and attached
    otherwise, then one search with the default [k].  The script prints
    the documents found; here they are the value returned. *)
Definition knowledge_base_main (E : Env) : M (list Document) :=
  fun w0 =>
    let w := mkWorld (KnowledgeBase_init default_persist_directory) (trace w0) in
    (let* _ :=
       (fun w =>
          if negb (os_path_exists E (trace w) "./chroma_db")
          then (let* docs := load_documents E "./support_docs" in
                create_vectorstore E docs) w
          else load_vectorstore E w) in
     search_default E "How do I cancel subscription?") w.

(** The [__main__] block of ticket_classifier.py: each ticket of the list
    goes through the classifier in turn; an exception ends the loop. *)
Definition test_tickets : list string :=
  [ "I can't log into my account, getting error 500";
    "Why was I charged twice for my subscription?";
    "The app crashes when I try to upload files";
    "Can you add dark mode to the mobile app?";
    "I was billed after I cancelled my subscription.";
    "I forgot my password and can't reset it.";
    "The download button doesn't work anymore.";
    "Please delete my account permanently.";
    "I love the new UI, thanks!";
    "Are you planning to support regional languages?";
    "Security issue: I see someone else's data in my dashboard.";
    "When is the next billing cycle?";
    "Your last update broke everything!";
    "How do I change my profile photo?" ].

Fixpoint classify_each (E : Env) (tickets : list string) : M (list pyval) :=
  match tickets with
  | [] => ret []
  | ticket :: rest =>
      let* result := classify E ticket in
      let* results := classify_each E rest in
      ret (result :: results)
  end.

Definition ticket_classifier_main (E : Env) : M (list pyval) :=
  classify_each E test_tickets.

(** The context string built by [generate_response]. *)
Definition context_of (relevant_docs : list Document) : string :=
  String.concat (nl +:+ nl) (map page_content relevant_docs).

(** One generator serving a sequence of tickets, as the server and the
    dashboard keep one [ResponseGenerator] for all requests. *)
Definition run_tickets (E : Env) (tickets : list string) (w : World) : World :=
  fold_left (fun w t => snd (generate_response E t w)) tickets w.

(** server/api.py: the [/generate] route.  The module takes its
    [ResponseGenerator] from [shared.response_generator] and keeps one
    instance for all requests; the route is modelled for the
    [generate_response] method of whatever generator it holds, [generate].
    A result is returned as the reply.  An exception that is an instance
    of [Exception] is replaced by
    [HTTPException(status_code=500, detail=str(e))]; any other exception
    passes through the [except] clause. *)
Inductive RouteOutcome :=
| Returned (result : TicketResult)
| HTTPException (status_code : Z) (detail : string).

Definition outcome_of (r : Result TicketResult) : RouteOutcome :=
  match r with
  | Ok result => Returned result
  | Raise e => HTTPException 500 (exn_message e)
  end.

Section Route.
Variable generate : string -> M TicketResult.
(* [isinstance(e, Exception)] *)
Variable is_Exception : Exn -> bool.

Definition api_generate_response (text : string) : M RouteOutcome :=
  fun w =>
    match generate text w with
    | (Ok result, w') => (Ok (Returned result), w')
    | (Raise e, w') =>
        if is_Exception e
        then (Ok (HTTPException 500 (exn_message e)), w')
        else (Raise e, w')
    end.

(** Requests handled one after another by the same generator; an
    exception that passes through the route ends the run. *)
Fixpoint serve (texts : list string) : M (list RouteOutcome) :=
  match texts with
  | [] => ret []
  | text :: rest =>
      let* outcome := api_generate_response text in
      let* outcomes := serve rest in
      ret (outcome :: outcomes)
  end.

(** The state in which the generator is left by a sequence of requests. *)
Definition after_requests (texts : list string) (w : World) : World :=
  fold_left (fun w t => snd (generate t w)) texts w.

End Route.

(** app.py, the single-process dashboard: the session keeps the generator
    and a counter; a click on the process button with the text of the
    input area runs the body below.  What is drawn from a result is left
    to [render], which may raise (for instance on a classification
    without a [category] key). *)
Module App.

Record Session := mkSession {
  generator : World;
  ticket_count : Z
}.

Inductive Shown :=
| ShownResult (result : TicketResult)
| ShownWarning.

Definition process_ticket (E : Env) (render : TicketResult -> Result unit)
    (ticket_text : string) (s : Session) : Result Shown * Session :=
  if String.eqb ticket_text ""
  then (Ok ShownWarning, s)
  else
    match generate_response E ticket_text (generator s) with
    | (Raise e, w') => (Raise e, mkSession w' (ticket_count s))
    | (Ok result, w') =>
        let s' := mkSession w' (ticket_count s + 1) in
        match render result with
        | Ok _ => (Ok (ShownResult result), s')
        | Raise e => (Raise e, s')
        end
    end.

Definition clicks (E : Env) (render : TicketResult -> Result unit)
    (texts : list string) (s : Session) : Session :=
  fold_left (fun s t => snd (process_ticket E render t s)) texts s.

End App.

(** client/app.py, the dashboard that talks to the server over HTTP. *)
Module Client.

(** Outcomes without state. *)
Definition rbind {A B} (r : Result A) (f : A -> Result B) : Result B :=
  match r with
  | Ok a => f a
  | Raise e => Raise e
  end.

(** Python's name for the type of a value, as it appears in messages. *)
Definition type_name (v : pyval) : string :=
  match v with
  | PNone => "NoneType"
  | PBool _ => "bool"
  | PInt _ => "int"
  | PFloat _ => "float"
  | PStr _ => "str"
  | PList _ => "list"
  | PDict _ => "dict"
  end.

Definition attribute_error (v : pyval) (attr : string) : Exn :=
  mkExn "AttributeError"
        ("'" +:+ type_name v +:+ "' object has no attribute '" +:+ attr +:+ "'").

(** [v.get(key, dflt)]: only a dict has the method. *)
Definition py_get (v : pyval) (key : string) (dflt : pyval) : Result pyval :=
  match v with
  | PDict d => Ok (default dflt (dict_get d key))
  | _ => Raise (attribute_error v "get")
  end.

(** [len(v)]: strings, lists and dicts have a length.  The keys of a dict
    are distinct; a repeated key in the association list is counted
    once. *)
Fixpoint distinct_keys (d : list (string * pyval)) : list string :=
  match d with
  | [] => []
  | (k, _) :: rest =>
      if existsb (String.eqb k) (distinct_keys rest)
      then distinct_keys rest
      else k :: distinct_keys rest
  end.

Definition py_len (v : pyval) : Result Z :=
  match v with
  | PStr s => Ok (Z.of_nat (String.length s))
  | PList l => Ok (Z.of_nat (length l))
  | PDict d => Ok (Z.of_nat (length (distinct_keys d)))
  | _ => Raise (mkExn "TypeError"
                  ("object of type '" +:+ type_name v +:+ "' has no len()"))
  end.

(** [str.lower] on the letters A to Z.  The function below compares the
    lowered text with four keys made of the letters a to z only, and no
    character outside A to Z is lowered by Python to one of the letters
    those keys contain, so leaving the other characters alone does not
    change any comparison. *)
Definition ascii_lower (a : ascii) : ascii :=
  let n := nat_of_ascii a in
  if (Nat.leb 65 n && Nat.leb n 90)%bool then ascii_of_nat (n + 32) else a.

Fixpoint lower (s : string) : string :=
  match s with
  | EmptyString => EmptyString
  | String a rest => String (ascii_lower a) (lower rest)
  end.

Definition colors : list (string * string) :=
  [ ("urgent", "🔴"); ("high", "🟠"); ("medium", "🟡"); ("low", "🟢") ].

(** [get_priority_color(priority)]. *)
Definition get_priority_color (priority : pyval) : Result string :=
  match priority with
  | PStr s => Ok (default "⚪" (assoc colors (lower s)))
  | _ => Raise (attribute_error priority "lower")
  end.

(** The session state the script initialises on its first run. *)
Record HistoryEntry := mkEntry {
  timestamp : string;
  ticket : string;
  category : pyval;
  priority : pyval;
  confidence : pyval;
  response_length : Z
}.

Record SessionState := mkState {
  ticket_count : Z;
  tickets_history : list HistoryEntry;
  api_connected : bool
}.

Definition initial_state : SessionState := mkState 0 [] false.

(** The [history_entry] dict built after a successful call, from the time
    stamp, the stripped ticket and the decoded body of the reply. *)
Definition history_entry (now ticket_text : string) (result : pyval) :
    Result HistoryEntry :=
  rbind (py_get result "classification" (PDict [])) (fun c1 =>
  rbind (py_get c1 "category" (PStr "unknown")) (fun category =>
  rbind (py_get result "classification" (PDict [])) (fun c2 =>
  rbind (py_get c2 "priority" (PStr "medium")) (fun priority =>
  rbind (py_get result "classification" (PDict [])) (fun c3 =>
  rbind (py_get c3 "confidence" (PInt 0)) (fun confidence =>
  rbind (py_get result "response" (PStr "")) (fun response =>
  rbind (py_len response) (fun n =>
  Ok (mkEntry now ticket_text category priority confidence n))))))))).

(** The two places where the script writes the counter and the history.
    [Process] is the processing block reached after a click on the process
    button: the text of the input area, the pair returned by
    [call_generate_api] for it and the time of the run.  [ClearHistory] is
    the body of the button of that name. *)
Inductive Action :=
| Process (ticket_text : string) (api_answer : bool * pyval) (now : string)
| ClearHistory.

Section Script.
(* [str.strip] *)
Variable strip : string -> string.
(* everything drawn after the history has been updated *)
Variable render : pyval -> Result unit.

Definition process (ticket_text : string) (api_answer : bool * pyval) (now : string)
    (s : SessionState) : Result unit * SessionState :=
  if negb (String.eqb (strip ticket_text) "")
  then
    let '(success, result) := api_answer in
    if success
    then
      let s1 := mkState (ticket_count s + 1) (tickets_history s) (api_connected s) in
      match history_entry now (strip ticket_text) result with
      | Raise e => (Raise e, s1)
      | Ok entry =>
          (render result,
           mkState (ticket_count s1) (tickets_history s1 ++ [entry]) (api_connected s1))
      end
    else (Ok tt, s)
  else (Ok tt, s).

Definition step (a : Action) (s : SessionState) : SessionState :=
  match a with
  | Process ticket_text api_answer now => snd (process ticket_text api_answer now s)
  | ClearHistory => mkState 0 [] (api_connected s)
  end.

Definition run (actions : list Action) (s : SessionState) : SessionState :=
  fold_left (fun s a => step a s) actions s.

(** A successful reply from which the entry can be built. *)
Definition builds_entry (a : Action) : Prop :=
  match a with
  | Process ticket_text (true, result) now =>
      exists entry, history_entry now (strip ticket_text) result = Ok entry
  | _ => True
  end.

End Script.

End Client.

(** ** Properties of [KnowledgeBase.search] *)

Section SearchFacts.
Variable E : Env.

(** With a store in place that tests true, [search] is the store's own
    search and one more line in the log. *)
Lemma search_attached (w : World) (q : string) (k : Z) (h : Handle) :
  vectorstore (knowledge_base w) = Some h ->
  Chroma_bool E (trace w) h = true ->
  search E q k w =
    (Chroma_similarity_search E (trace w) h q k,
     mkWorld (knowledge_base w) (trace w ++ [EvSimilaritySearch h q k])).
Proof.
  intros Hs Hb. unfold search, bind, get_kb, truthy, call.
  rewrite Hs, Hb. simpl. rewrite Hs. reflexivity.
Qed.

(** With no usable store, [search] first runs [load_vectorstore]. *)
Lemma search_loads_first (w : World) (q : string) (k : Z) :
  truthy E (trace w) (vectorstore (knowledge_base w)) = false ->
  search E q k w =
    match Chroma_init E (trace w) (persist_directory (knowledge_base w))
            (embeddings (knowledge_base w)) with
    | Raise e =>
        (Raise e, mkWorld (knowledge_base w) (trace w ++ [attach_event (knowledge_base w)]))
    | Ok h =>
        (Chroma_similarity_search E (trace w ++ [attach_event (knowledge_base w)]) h q k,
         mkWorld (with_store (knowledge_base w) h)
                 (trace w ++ [attach_event (knowledge_base w)]
                          ++ [EvSimilaritySearch h q k]))
    end.
Proof.
  intros Ht. unfold search, bind. rewrite Ht. simpl.
  unfold load_vectorstore, bind, get_kb, call, set_vectorstore. simpl.
  destruct (Chroma_init E (trace w) _ _) as [h|e]; simpl; [|reflexivity].
  unfold call. simpl. rewrite <- app_assoc. reflexivity.
Qed.

(** [load_documents] returns what the splitter, set to 800 and 100, makes
    of the loaded files. *)
Lemma load_documents_steps (w : World) (p : string) :
  load_documents E p w =
    (match DirectoryLoader_load E (trace w) p "*.txt" with
     | Ok documents => split_documents E 800 100 documents
     | Raise e => Raise e
     end,
     mkWorld (knowledge_base w) (trace w ++ [EvDirectoryLoad p "*.txt"])).
Proof.
  unfold load_documents, bind, call. simpl.
  destruct (DirectoryLoader_load E (trace w) p "*.txt"); reflexivity.
Qed.

End SearchFacts.

(** ** Claims about [search] *)




(** C2 (as stated, refuted).  On a fresh KnowledgeBase, with nothing at the
    configured location, [search] attaches a store and returns: here the
    attached store is empty and the result is the empty list, not an
    [IndexNotFoundError]. *)
Lemma C2_search_without_index_returns :
  vectorstore (knowledge_base fresh) = None /\
  os_path_exists (stub_env stub_empty) (trace fresh)
    (persist_directory (knowledge_base fresh)) = false /\
  fst (search (stub_env stub_empty) "How do I cancel?" 3 fresh) = Ok [] /\
  ~ raises_class (fst (search (stub_env stub_empty) "How do I cancel?" 3 fresh))
      "IndexNotFoundError".
Proof.
  repeat split; try reflexivity.
  intros [msg H]. vm_compute in H. discriminate H.
Qed.

(** C2 (amended).  Called before any build or load, [search] first runs
    [load_vectorstore], which constructs the store for the configured
    directory.  If that constructor raises, [search] raises the same
    exception and the field stays unset; if it returns a store, [search]
    keeps it and goes on to that store's [similarity_search], whose
    outcome is the outcome of [search].  Nothing is checked about the
    location by [search] or [load_vectorstore] themselves. *)
Theorem C2_search_loads_then_forwards (E : Env) (w : World) (q : string) (k : Z) :
  vectorstore (knowledge_base w) = None ->
  search E q k w =
    match Chroma_init E (trace w) (persist_directory (knowledge_base w))
            (embeddings (knowledge_base w)) with
    | Raise e =>
        (Raise e, mkWorld (knowledge_base w) (trace w ++ [attach_event (knowledge_base w)]))
    | Ok h =>
        (Chroma_similarity_search E (trace w ++ [attach_event (knowledge_base w)]) h q k,
         mkWorld (with_store (knowledge_base w) h)
                 (trace w ++ [attach_event (knowledge_base w)]
                          ++ [EvSimilaritySearch h q k]))
    end.
Proof.
  intros Hn. apply search_loads_first. unfold truthy. rewrite Hn. reflexivity.
Qed.

Lemma C2_search_loads_then_forwards_witness :
  search (stub_env stub_docs) "refund" 1 fresh =
    (Ok [refund_doc],
     mkWorld (with_store (knowledge_base fresh) 0%nat)
             [attach_event (knowledge_base fresh); EvSimilaritySearch 0%nat "refund" 1]).
Proof.
  exact (C2_search_loads_then_forwards (stub_env stub_docs) fresh "refund" 1 eq_refl).
Defined.

(** ** Properties of the chains *)

Section ChainFacts.
Variable E : Env.

(** One run of the classifier chain: one model call, logged, and one pass
    of the reply through the JSON parser. *)
Lemma classify_steps (w : World) (t : string) :
  classify E t w =
    (match ChatGroq_invoke E (trace w) (chain_llm (create_classifier E))
             (chain_prompt (create_classifier E)) [("ticket_text", PStr t)] with
     | Ok text => JsonOutputParser_parse E TicketClassification text
     | Raise e => Raise e
     end,
     mkWorld (knowledge_base w)
       (trace w ++ [EvChatInvoke (chain_llm (create_classifier E))
                      (chain_prompt (create_classifier E)) [("ticket_text", PStr t)]])).
Proof.
  unfold classify, invoke, bind, call. simpl.
  destruct (ChatGroq_invoke E (trace w) _ _ _); reflexivity.
Qed.

(** One run of the response chain: one model call, whose reply is
    returned as it is. *)
Lemma respond_steps (w : World) (inputs : list (string * pyval)) :
  invoke E (rg_chain) inputs w =
    (match ChatGroq_invoke E (trace w) rg_llm response_prompt inputs with
     | Ok text => Ok (PStr text)
     | Raise e => Raise e
     end,
     mkWorld (knowledge_base w) (trace w ++ [EvChatInvoke rg_llm response_prompt inputs])).
Proof.
  unfold invoke, bind, call, ret. simpl.
  destruct (ChatGroq_invoke E (trace w) _ _ _); reflexivity.
Qed.

Lemma count_chat_snoc (tr : list Event) (ev : Event) :
  count_chat (tr ++ [ev]) = (count_chat tr + (if is_chat ev then 1 else 0))%nat.
Proof.
  unfold count_chat. rewrite List.filter_app, List.length_app. simpl.
  destruct (is_chat ev); reflexivity.
Qed.

(** [generate_response] as the sequence of its three steps. *)
Lemma generate_response_steps (t : string) (w w1 w2 w3 : World)
    (c r : pyval) (docs : list Document) :
  classify E t w = (Ok c, w1) ->
  search E t 5 w1 = (Ok docs, w2) ->
  invoke E rg_chain (response_inputs c docs t) w2 = (Ok r, w3) ->
  generate_response E t w =
    (Ok (mkTicketResult r c (map source_of docs)), w3).
Proof.
  intros Hc Hs Hr. unfold generate_response, bind.
  change (invoke E (rg_classifier E) [("ticket_text", PStr t)] w) with (classify E t w).
  rewrite Hc, Hs, Hr. reflexivity.
Qed.

End ChainFacts.

(** ** Claims about the classifier *)

(** C3 (as stated, refuted).  The model replies with well-formed JSON
    whose category is not one of the four documented ones and whose
    confidence is 7.5.  The value conforms to the declared
    [TicketClassification] types, and [classify] returns it: neither an
    in-domain Classification nor a [ClassificationError]. *)
Lemma C3_classify_returns_out_of_domain :
  fst (classify (stub_env stub_odd) "Where is my refund?" fresh) = Ok odd_json /\
  conforms TicketClassification odd_json = true /\
  in_domain odd_json = false /\
  unit_interval (Some (PFloat (15 # 2))) = false /\
  ~ raises_class (fst (classify (stub_env stub_odd) "Where is my refund?" fresh))
      "ClassificationError".
Proof.
  repeat split; try reflexivity.
  intros [msg H]. vm_compute in H. discriminate H.
Qed.

(** C3 (amended).  [classify] returns exactly the value the JSON output
    parser produces from the model's reply, or raises the exception that
    the model call or the parser raised; it adds no check and no
    [ClassificationError] of its own.  The declared [TicketClassification]
    types category, priority and sentiment as plain strings and confidence
    as a plain float: any three strings and any number conform to it. *)
Theorem C3_classify_is_model_then_parser (E : Env) (w : World) (t : string) :
  fst (classify E t w) =
    match ChatGroq_invoke E (trace w) (chain_llm (create_classifier E))
            (chain_prompt (create_classifier E)) [("ticket_text", PStr t)] with
    | Ok text => JsonOutputParser_parse E TicketClassification text
    | Raise e => Raise e
    end /\
  forall (c p s : string) (x : Q),
    conforms TicketClassification
      (PDict [ ("category", PStr c); ("priority", PStr p);
               ("sentiment", PStr s); ("confidence", PFloat x) ]) = true.
Proof.
  split.
  - rewrite classify_steps. reflexivity.
  - intros c p s x. reflexivity.
Qed.

(** C4 (as stated, refuted).  The model's first reply is not JSON and its
    second reply would be.  The policy of the specification makes the
    second call and returns its classification; [classify] makes one call
    and raises the parser's exception. *)
Lemma C4_classify_does_not_retry :
  fst (classify (stub_env stub_flaky) "I was charged twice this month" fresh) =
    Raise (mkExn "OutputParserException" "Sure! Here is the JSON") /\
  count_chat (trace (snd (classify (stub_env stub_flaky)
                            "I was charged twice this month" fresh))) = 1%nat /\
  fst (spec_classify (stub_env stub_flaky) "I was charged twice this month" fresh) =
    Ok billing_json /\
  count_chat (trace (snd (spec_classify (stub_env stub_flaky)
                            "I was charged twice this month" fresh))) = 2%nat /\
  classify (stub_env stub_flaky) "I was charged twice this month" fresh <>
    spec_classify (stub_env stub_flaky) "I was charged twice this month" fresh.
Proof.
  repeat split; try reflexivity.
  intros H. apply (f_equal fst) in H. vm_compute in H. discriminate H.
Qed.

(** C4 (amended).  Every call of [classify] makes exactly one generation
    call, whatever the reply: there is no retry.  When the parser rejects
    the reply, [classify] raises the parser's own exception, unchanged. *)
Theorem C4_classify_single_attempt (E : Env) (w : World) (t : string) :
  count_chat (trace (snd (classify E t w))) = S (count_chat (trace w)) /\
  forall text e,
    ChatGroq_invoke E (trace w) (chain_llm (create_classifier E))
      (chain_prompt (create_classifier E)) [("ticket_text", PStr t)] = Ok text ->
    JsonOutputParser_parse E TicketClassification text = Raise e ->
    fst (classify E t w) = Raise e.
Proof.
  rewrite classify_steps. simpl. split.
  - rewrite count_chat_snoc. simpl. lia.
  - intros text e Hm Hp. rewrite Hm. exact Hp.
Qed.

Lemma C4_classify_single_attempt_witness :
  fst (classify (stub_env stub_flaky) "I was charged twice this month" fresh) =
    Raise (mkExn "OutputParserException" "Sure! Here is the JSON").
Proof.
  apply (proj2 (C4_classify_single_attempt (stub_env stub_flaky) fresh
                  "I was charged twice this month") "Sure! Here is the JSON");
    reflexivity.
Defined.

(** ** Claims about [generate_response] *)

(** C5.  When classification, retrieval and the generation call return,
    [generate_response] returns a result whose [sources] has one entry per
    retrieved chunk, in retrieval order and with repetitions kept: the
    entry at each rank is the [source] entry of that chunk's metadata when
    there is one, and the string [unknown] otherwise. *)
Theorem C5_sources_follow_retrieval (E : Env) (t : string) (w w1 w2 w3 : World)
    (c r : pyval) (docs : list Document) :
  classify E t w = (Ok c, w1) ->
  search E t 5 w1 = (Ok docs, w2) ->
  invoke E rg_chain (response_inputs c docs t) w2 = (Ok r, w3) ->
  exists res,
    generate_response E t w = (Ok res, w3) /\
    response res = r /\
    classification res = c /\
    length (sources res) = length docs /\
    forall i d,
      nth_error docs i = Some d ->
      nth_error (sources res) i =
        Some (match metadata d !! "source" with
              | Some v => v
              | None => PStr "unknown"
              end).
Proof.
  intros Hc Hs Hr.
  exists (mkTicketResult r c (map source_of docs)).
  split; [apply (generate_response_steps E t w w1 w2 w3); assumption|].
  simpl. repeat split.
  - apply List.length_map.
  - intros i d Hd. apply (map_nth_error source_of) in Hd. rewrite Hd.
    unfold source_of. destruct (metadata d !! "source"); reflexivity.
Qed.

Lemma C5_sources_follow_retrieval_witness :
  exists res,
    generate_response (stub_env stub_docs) "Where is my refund?" fresh =
      (Ok res, snd (generate_response (stub_env stub_docs) "Where is my refund?" fresh)) /\
    response res = PStr "Your refund is on its way." /\
    classification res = billing_json /\
    length (sources res) = 3%nat /\
    forall i d,
      nth_error [refund_doc; cancel_doc; note_doc] i = Some d ->
      nth_error (sources res) i =
        Some (match metadata d !! "source" with
              | Some v => v
              | None => PStr "unknown"
              end).
Proof.
  apply (C5_sources_follow_retrieval (stub_env stub_docs) "Where is my refund?" fresh
           (snd (classify (stub_env stub_docs) "Where is my refund?" fresh))
           (snd (search (stub_env stub_docs) "Where is my refund?" 5
                   (snd (classify (stub_env stub_docs) "Where is my refund?" fresh))))
           (snd (generate_response (stub_env stub_docs) "Where is my refund?" fresh))
           billing_json (PStr "Your refund is on its way.")
           [refund_doc; cancel_doc; note_doc]);
    reflexivity.
Defined.

(** C6.  When classification returns and retrieval returns no chunk, the
    generation call is made with the empty string as context, and if it
    returns a reply [generate_response] returns a result with that reply,
    the classification and an empty [sources]: the absence of chunks
    raises nothing. *)
Theorem C6_empty_retrieval_still_returns (E : Env) (t : string) (w w1 w2 : World)
    (c : pyval) (text : string) :
  classify E t w = (Ok c, w1) ->
  search E t 5 w1 = (Ok [], w2) ->
  ChatGroq_invoke E (trace w2) rg_llm response_prompt
    [ ("context", PStr ""); ("classification", c); ("question", PStr t) ] = Ok text ->
  generate_response E t w =
    (Ok (mkTicketResult (PStr text) c []),
     mkWorld (knowledge_base w2)
       (trace w2 ++ [EvChatInvoke rg_llm response_prompt
                       [ ("context", PStr ""); ("classification", c);
                         ("question", PStr t) ]])).
Proof.
  intros Hc Hs Hg.
  apply (generate_response_steps E t w w1 w2 _ c (PStr text) []); try assumption.
  rewrite respond_steps. unfold response_inputs. simpl. rewrite Hg. reflexivity.
Qed.

Lemma C6_empty_retrieval_still_returns_witness :
  fst (generate_response (stub_env stub_empty) "My printer is on fire" fresh) =
    Ok (mkTicketResult (PStr "I could not find this; escalating.") billing_json []).
Proof.
  apply (f_equal fst
           (C6_empty_retrieval_still_returns (stub_env stub_empty)
              "My printer is on fire" fresh
              (snd (classify (stub_env stub_empty) "My printer is on fire" fresh))
              (snd (search (stub_env stub_empty) "My printer is on fire" 5
                      (snd (classify (stub_env stub_empty) "My printer is on fire" fresh))))
              billing_json "I could not find this; escalating."
              eq_refl eq_refl eq_refl)).
Defined.

(** ** The [vectorstore] field across calls *)

Section StoreLifetime.
Variable E : Env.

Lemma count_attach_snoc (tr : list Event) (ev : Event) :
  count_attach (tr ++ [ev]) = (count_attach tr + (if is_attach ev then 1 else 0))%nat.
Proof.
  unfold count_attach. rewrite List.filter_app, List.length_app. simpl.
  destruct (is_attach ev); reflexivity.
Qed.



(** No method puts [None] back into the field. *)
Lemma exec_keeps_store (c : KBCall) (w : World) :
  vectorstore (knowledge_base w) <> None ->
  vectorstore (knowledge_base (exec E c w)) <> None.
Proof.
  intros Hv. destruct c as [p|docs| |q k]; simpl.
  - unfold load_documents, bind, call. simpl.
    destruct (DirectoryLoader_load E (trace w) p "*.txt"); simpl; exact Hv.
  - unfold create_vectorstore, bind, get_kb, call, set_vectorstore. simpl.
    destruct (Chroma_from_documents E (trace w) docs _ _); simpl;
      [discriminate | exact Hv].
  - unfold load_vectorstore, bind, get_kb, call, set_vectorstore. simpl.
    destruct (Chroma_init E (trace w) _ _); simpl; [discriminate | exact Hv].
  - destruct (truthy E (trace w) (vectorstore (knowledge_base w))) eqn:Ht.
    + destruct (vectorstore (knowledge_base w)) as [h|] eqn:Hs; [|discriminate Ht].
      simpl in Ht. rewrite (search_attached E w q k h Hs Ht). simpl.
      rewrite Hs. discriminate.
    + rewrite (search_loads_first E w q k Ht).
      destruct (Chroma_init E (trace w) _ _); simpl; [discriminate | exact Hv].
Qed.

End StoreLifetime.



(** ** Further properties of the KnowledgeBase *)

Section KnowledgeBaseFacts.
Variable E : Env.

Lemma count_events_app (p : Event -> bool) (tr tr' : list Event) :
  count_events p (tr ++ tr') = (count_events p tr + count_events p tr')%nat.
Proof. unfold count_events. rewrite List.filter_app, List.length_app. reflexivity. Qed.

(** What one [search] adds to the log and does to the object: a search on
    the store held, or an attach that failed, or an attach followed by a
    search on the store attached. *)
Lemma search_effect (w : World) (q : string) (k : Z) :
  (exists h,
     vectorstore (knowledge_base w) = Some h /\
     snd (search E q k w) =
       mkWorld (knowledge_base w) (trace w ++ [EvSimilaritySearch h q k])) \/
  snd (search E q k w) =
    mkWorld (knowledge_base w) (trace w ++ [attach_event (knowledge_base w)]) \/
  (exists h,
     snd (search E q k w) =
       mkWorld (with_store (knowledge_base w) h)
         (trace w ++ [attach_event (knowledge_base w); EvSimilaritySearch h q k])).
Proof.
  destruct (truthy E (trace w) (vectorstore (knowledge_base w))) eqn:Ht.
  - destruct (vectorstore (knowledge_base w)) as [h|] eqn:Hv; [|discriminate Ht].
    simpl in Ht. left. exists h. split; [reflexivity|].
    rewrite (search_attached E w q k h Hv Ht). reflexivity.
  - right. rewrite (search_loads_first E w q k Ht).
    destruct (Chroma_init E (trace w) _ _) as [h|e].
    + right. exists h. reflexivity.
    + left. reflexivity.
Qed.

(** A predicate that holds of no attach and no search is counted the same
    before and after a [search]. *)
Lemma search_keeps_count (p : Event -> bool) (w : World) (q : string) (k : Z) :
  (forall d e, p (EvChroma d e) = false) ->
  (forall h q' k', p (EvSimilaritySearch h q' k') = false) ->
  count_events p (trace (snd (search E q k w))) = count_events p (trace w).
Proof.
  intros Ha Hs.
  destruct (search_effect w q k) as [[h [_ Hw]] | [Hw | [h Hw]]];
    rewrite Hw; simpl; rewrite count_events_app; unfold count_events, attach_event;
    simpl; rewrite ?Ha, ?Hs; simpl; lia.
Qed.

Lemma exec_keeps_config (c : KBCall) (w : World) :
  persist_directory (knowledge_base (exec E c w)) = persist_directory (knowledge_base w) /\
  embeddings (knowledge_base (exec E c w)) = embeddings (knowledge_base w).
Proof.
  destruct c as [p|docs| |q k]; simpl.
  - unfold load_documents, bind, call. simpl.
    destruct (DirectoryLoader_load E (trace w) p "*.txt"); simpl; split; reflexivity.
  - unfold create_vectorstore, bind, get_kb, call, set_vectorstore. simpl.
    destruct (Chroma_from_documents E (trace w) docs _ _); simpl; split; reflexivity.
  - unfold load_vectorstore, bind, get_kb, call, set_vectorstore. simpl.
    destruct (Chroma_init E (trace w) _ _); simpl; split; reflexivity.
  - destruct (search_effect w q k) as [[h [_ Hw]] | [Hw | [h Hw]]];
      rewrite Hw; simpl; split; reflexivity.
Qed.

End KnowledgeBaseFacts.

(** X1.  Whatever methods are called on a KnowledgeBase, in whatever order
    and whether they return or raise, its [persist_directory] and its
    embedding model stay those given at construction, and a store once
    held is never dropped. *)
Theorem run_calls_keeps_configuration (E : Env) (calls : list KBCall) (w : World) :
  persist_directory (knowledge_base (run_calls E calls w)) =
    persist_directory (knowledge_base w) /\
  embeddings (knowledge_base (run_calls E calls w)) = embeddings (knowledge_base w) /\
  (vectorstore (knowledge_base w) <> None ->
   vectorstore (knowledge_base (run_calls E calls w)) <> None).
Proof.
  revert w. induction calls as [|c calls IH]; intros w.
  - simpl. repeat split; auto.
  - simpl. change (fold_left _ calls ?x) with (run_calls E calls x).
    destruct (IH (exec E c w)) as [Hd [He Hv]].
    destruct (exec_keeps_config E c w) as [Hd' He'].
    repeat split.
    + rewrite Hd. exact Hd'.
    + rewrite He. exact He'.
    + intros Hn. apply Hv. apply exec_keeps_store. exact Hn.
Qed.

Lemma run_calls_keeps_configuration_witness :
  vectorstore
    (knowledge_base
       (run_calls (stub_env stub_docs)
          [CallLoadDocuments "./support_docs"; CallSearch "refund" 0;
           CallCreateVectorstore [refund_doc]; CallLoadVectorstore]
          (mkWorld (with_store (KnowledgeBase_init "./db") 7%nat) []))) <> None.
Proof.
  apply (proj2 (proj2 (run_calls_keeps_configuration (stub_env stub_docs)
           [CallLoadDocuments "./support_docs"; CallSearch "refund" 0;
            CallCreateVectorstore [refund_doc]; CallLoadVectorstore]
           (mkWorld (with_store (KnowledgeBase_init "./db") 7%nat) [])))).
  simpl. discriminate.
Defined.

(** X2.  A rebuild that fails does no harm to the object: when
    [create_vectorstore] raises on a KnowledgeBase that holds a store
    testing true, the exception is the store library's, the object is
    unchanged, and the next [search] runs on the store held before,
    without attaching. *)
Theorem failed_build_keeps_store (E : Env) (w : World) (docs : list Document)
    (h : Handle) (e : Exn) (q : string) (k : Z) :
  vectorstore (knowledge_base w) = Some h ->
  (forall tr, Chroma_bool E tr h = true) ->
  fst (create_vectorstore E docs w) = Raise e ->
  Chroma_from_documents E (trace w) docs (embeddings (knowledge_base w))
    (persist_directory (knowledge_base w)) = Raise e /\
  knowledge_base (snd (create_vectorstore E docs w)) = knowledge_base w /\
  search E q k (snd (create_vectorstore E docs w)) =
    (Chroma_similarity_search E (trace (snd (create_vectorstore E docs w))) h q k,
     mkWorld (knowledge_base w)
       (trace w ++ [EvFromDocuments docs (embeddings (knowledge_base w))
                      (persist_directory (knowledge_base w));
                    EvSimilaritySearch h q k])).
Proof.
  intros Hv Hb Hr.
  unfold create_vectorstore, bind, get_kb, call, set_vectorstore in *. simpl in *.
  destruct (Chroma_from_documents E (trace w) docs _ _) as [h'|e'] eqn:Hf;
    simpl in *; [discriminate Hr|].
  injection Hr as ->. split; [reflexivity|]. split; [reflexivity|].
  rewrite (search_attached E _ q k h); simpl; auto.
  rewrite <- app_assoc. reflexivity.
Qed.

Lemma failed_build_keeps_store_witness :
  search (faulty_env (mkFaults true false false false true) stub_docs) "refund" 2
    (snd (create_vectorstore (faulty_env (mkFaults true false false false true) stub_docs)
            [note_doc]
            (mkWorld (with_store (KnowledgeBase_init "./db") 4%nat) []))) =
    (Ok [refund_doc; cancel_doc],
     mkWorld (with_store (KnowledgeBase_init "./db") 4%nat)
       [EvFromDocuments [note_doc]
          (embeddings (KnowledgeBase_init "./db")) "./db";
        EvSimilaritySearch 4%nat "refund" 2]).
Proof.
  exact (proj2 (proj2 (failed_build_keeps_store
           (faulty_env (mkFaults true false false false true) stub_docs)
           (mkWorld (with_store (KnowledgeBase_init "./db") 4%nat) [])
           [note_doc] 4%nat (mkExn "OSError" "disk full") "refund" 2
           eq_refl (fun _ => eq_refl) eq_refl))).
Defined.

(** ** The script of knowledge_base.py *)

(** X3.  When [./chroma_db] exists, the script never rebuilds: it reads no
    document directory and builds no store, whatever the attach and the
    search do. *)
Theorem main_reuses_existing_index (E : Env) (w0 : World) :
  os_path_exists E (trace w0) "./chroma_db" = true ->
  count_events is_build (trace (snd (knowledge_base_main E w0))) =
    count_events is_build (trace w0) /\
  count_events is_directory_load (trace (snd (knowledge_base_main E w0))) =
    count_events is_directory_load (trace w0).
Proof.
  intros Hx. unfold knowledge_base_main, bind, search_default. simpl. rewrite Hx. simpl.
  unfold load_vectorstore, bind, get_kb, call, set_vectorstore. simpl.
  destruct (Chroma_init E (trace w0) _ _) as [h|e]; simpl.
  - split.
    + rewrite search_keeps_count by reflexivity. simpl.
      rewrite count_events_app. unfold count_events. simpl. lia.
    + rewrite search_keeps_count by reflexivity. simpl.
      rewrite count_events_app. unfold count_events. simpl. lia.
  - rewrite !count_events_app. unfold count_events. simpl. lia.
Qed.

Lemma main_reuses_existing_index_witness :
  count_events is_build
    (trace (snd (knowledge_base_main
                   (faulty_env (mkFaults false false false false true) stub_docs) fresh))) =
    count_events is_build (trace fresh) /\
  count_events is_directory_load
    (trace (snd (knowledge_base_main
                   (faulty_env (mkFaults false false false false true) stub_docs) fresh))) =
    count_events is_directory_load (trace fresh).
Proof.
  apply (main_reuses_existing_index
           (faulty_env (mkFaults false false false false true) stub_docs) fresh).
  reflexivity.
Defined.

(** X4.  When [./chroma_db] does not exist and the documents cannot be
    loaded or split, the script stops with that exception before any store
    is created or searched: the only call logged is the directory load. *)
Theorem main_stops_when_documents_fail (E : Env) (w0 : World) (e : Exn) :
  os_path_exists E (trace w0) "./chroma_db" = false ->
  fst (load_documents E "./support_docs"
         (mkWorld (KnowledgeBase_init default_persist_directory) (trace w0))) = Raise e ->
  knowledge_base_main E w0 =
    (Raise e,
     mkWorld (KnowledgeBase_init default_persist_directory)
       (trace w0 ++ [EvDirectoryLoad "./support_docs" "*.txt"])).
Proof.
  intros Hx Hl. unfold knowledge_base_main, bind. simpl. rewrite Hx. simpl.
  unfold bind. rewrite load_documents_steps in *. simpl in *.
  destruct (DirectoryLoader_load E (trace w0) _ _) as [docs|e'] eqn:Hd; simpl in *.
  - rewrite Hl. reflexivity.
  - injection Hl as ->. reflexivity.
Qed.

Lemma main_stops_when_documents_fail_witness :
  knowledge_base_main (faulty_env (mkFaults false true false false false) stub_docs) fresh =
    (Raise (mkExn "FileNotFoundError" "./support_docs"),
     mkWorld (KnowledgeBase_init default_persist_directory)
       [EvDirectoryLoad "./support_docs" "*.txt"]).
Proof.
  exact (main_stops_when_documents_fail
           (faulty_env (mkFaults false true false false false) stub_docs) fresh
           (mkExn "FileNotFoundError" "./support_docs") eq_refl eq_refl).
Defined.

(** X5.  When [./chroma_db] does not exist and the build succeeds with a
    store that tests true, the script searches the store it has just
    built from the splitter's output, with [k = 3], and never attaches
    from disk. *)
Theorem main_builds_then_searches (E : Env) (w0 : World) (docs : list Document)
    (h : Handle) :
  let kb := KnowledgeBase_init default_persist_directory in
  let loaded := (trace w0 ++ [EvDirectoryLoad "./support_docs" "*.txt"])%list in
  let built :=
    (loaded ++ [EvFromDocuments docs (embeddings kb) (persist_directory kb)])%list in
  os_path_exists E (trace w0) "./chroma_db" = false ->
  fst (load_documents E "./support_docs" (mkWorld kb (trace w0))) = Ok docs ->
  Chroma_from_documents E loaded docs (embeddings kb) (persist_directory kb) = Ok h ->
  Chroma_bool E built h = true ->
  knowledge_base_main E w0 =
    (Chroma_similarity_search E built h "How do I cancel subscription?" 3,
     mkWorld (with_store kb h)
       (built ++ [EvSimilaritySearch h "How do I cancel subscription?" 3])).
Proof.
  intros kb loaded built Hx Hl Hf Hb.
  unfold knowledge_base_main, bind. simpl. rewrite Hx. simpl.
  unfold bind. rewrite load_documents_steps in *. simpl in *.
  destruct (DirectoryLoader_load E (trace w0) _ _) as [docs0|e'] eqn:Hd; simpl in *;
    [|discriminate Hl].
  rewrite Hl.
  unfold create_vectorstore, bind, get_kb, call, set_vectorstore. simpl.
  fold loaded. fold kb in Hf. simpl in Hf. rewrite Hf. simpl.
  unfold search_default.
  rewrite (search_attached E _ "How do I cancel subscription?" 3 h); simpl; auto.
Qed.

Lemma main_builds_then_searches_witness :
  knowledge_base_main (stub_env stub_docs) fresh =
    (Ok [refund_doc; cancel_doc; note_doc],
     mkWorld (with_store (KnowledgeBase_init default_persist_directory) 1%nat)
       [EvDirectoryLoad "./support_docs" "*.txt";
        EvFromDocuments [refund_doc; cancel_doc; note_doc]
          (embeddings (KnowledgeBase_init default_persist_directory))
          default_persist_directory;
        EvSimilaritySearch 1%nat "How do I cancel subscription?" 3]).
Proof.
  exact (main_builds_then_searches (stub_env stub_docs) fresh
           [refund_doc; cancel_doc; note_doc] 1%nat eq_refl eq_refl eq_refl eq_refl).
Defined.

(** ** Further properties of [generate_response] *)

Section GenerateFacts.
Variable E : Env.

(** The log entry of the classifier's model call. *)
Lemma classify_world (w : World) (t : string) :
  snd (classify E t w) =
    mkWorld (knowledge_base w)
      (trace w ++ [EvChatInvoke (chain_llm (create_classifier E))
                     (chain_prompt (create_classifier E)) [("ticket_text", PStr t)]]).
Proof. rewrite classify_steps. reflexivity. Qed.

(** A search that returns: which store it ran on, whether it attached
    first, what the store answered and what was logged. *)
Lemma search_returns_inv (w w2 : World) (q : string) (k : Z) (docs : list Document) :
  search E q k w = (Ok docs, w2) ->
  exists h attach,
    ((truthy E (trace w) (vectorstore (knowledge_base w)) = true /\
      vectorstore (knowledge_base w) = Some h /\ attach = []) \/
     (truthy E (trace w) (vectorstore (knowledge_base w)) = false /\
      Chroma_init E (trace w) (persist_directory (knowledge_base w))
        (embeddings (knowledge_base w)) = Ok h /\
      attach = [attach_event (knowledge_base w)])) /\
    Chroma_similarity_search E (trace w ++ attach) h q k = Ok docs /\
    trace w2 = (trace w ++ attach ++ [EvSimilaritySearch h q k])%list.
Proof.
  intros Hs.
  destruct (truthy E (trace w) (vectorstore (knowledge_base w))) eqn:Ht.
  - destruct (vectorstore (knowledge_base w)) as [h|] eqn:Hv; [|discriminate Ht].
    simpl in Ht. rewrite (search_attached E w q k h Hv Ht) in Hs.
    injection Hs as Hd <-. exists h, []. split; [left; auto|].
    rewrite app_nil_r. split; [exact Hd | reflexivity].
  - rewrite (search_loads_first E w q k Ht) in Hs.
    destruct (Chroma_init E (trace w) _ _) as [h|e] eqn:Hi; [|discriminate Hs].
    injection Hs as Hd <-. exists h, [attach_event (knowledge_base w)].
    split; [right; auto|]. split; [exact Hd | reflexivity].
Qed.

(** With a store held that always tests true, [generate_response] leaves
    the KnowledgeBase alone and attaches nothing, however it ends. *)
Lemma generate_response_attached (w : World) (t : string) (h : Handle) :
  vectorstore (knowledge_base w) = Some h ->
  (forall tr, Chroma_bool E tr h = true) ->
  knowledge_base (snd (generate_response E t w)) = knowledge_base w /\
  count_attach (trace (snd (generate_response E t w))) = count_attach (trace w).
Proof.
  intros Hv Hb. unfold generate_response, bind.
  change (invoke E (rg_classifier E) [("ticket_text", PStr t)] w) with (classify E t w).
  rewrite classify_steps.
  destruct (ChatGroq_invoke E (trace w) _ _ _) as [text|e]; simpl.
  2:{ split; [reflexivity|]. rewrite count_attach_snoc. simpl. lia. }
  destruct (JsonOutputParser_parse E TicketClassification text) as [c|e]; simpl.
  2:{ split; [reflexivity|]. rewrite count_attach_snoc. simpl. lia. }
  rewrite (search_attached E _ t 5 h); simpl; auto.
  destruct (Chroma_similarity_search E _ h t 5) as [docs|e]; simpl.
  2:{ split; [reflexivity|]. rewrite !count_attach_snoc. simpl. lia. }
  rewrite respond_steps. simpl.
  destruct (ChatGroq_invoke E _ rg_llm response_prompt _) as [r|e]; simpl;
    (split; [reflexivity|]); rewrite !count_attach_snoc; simpl; lia.
Qed.

End GenerateFacts.

(** X6.  Without a classification there is no retrieval and no reply:
    when the classifier's model call or its parser raises,
    [generate_response] raises that exception, the KnowledgeBase is left
    as it was and the only external call made is the classifier's. *)
Theorem generate_response_stops_at_classifier (E : Env) (t : string) (w : World)
    (e : Exn) :
  fst (classify E t w) = Raise e ->
  generate_response E t w =
    (Raise e,
     mkWorld (knowledge_base w)
       (trace w ++ [EvChatInvoke (chain_llm (create_classifier E))
                      (chain_prompt (create_classifier E)) [("ticket_text", PStr t)]])).
Proof.
  intros Hc. unfold generate_response, bind.
  change (invoke E (rg_classifier E) [("ticket_text", PStr t)] w) with (classify E t w).
  pose proof (classify_world E w t) as Hw.
  destruct (classify E t w) as [[c|e'] w1]; simpl in *; [discriminate Hc|].
  injection Hc as ->. rewrite Hw. reflexivity.
Qed.

Lemma generate_response_stops_at_classifier_witness :
  generate_response (stub_env stub_flaky) "I was charged twice this month" fresh =
    (Raise (mkExn "OutputParserException" "Sure! Here is the JSON"),
     mkWorld (knowledge_base fresh)
       [EvChatInvoke (chain_llm (create_classifier (stub_env stub_flaky)))
          (chain_prompt (create_classifier (stub_env stub_flaky)))
          [("ticket_text", PStr "I was charged twice this month")]]).
Proof.
  exact (generate_response_stops_at_classifier (stub_env stub_flaky)
           "I was charged twice this month" fresh
           (mkExn "OutputParserException" "Sure! Here is the JSON") eq_refl).
Defined.

(** X7.  When the retrieval raises after a classification was obtained,
    [generate_response] raises the same exception and the response model
    is never called: the run has made one model call, the classifier's. *)
Theorem generate_response_stops_at_retrieval (E : Env) (t : string) (w w1 : World)
    (c : pyval) (e : Exn) :
  classify E t w = (Ok c, w1) ->
  fst (search E t 5 w1) = Raise e ->
  fst (generate_response E t w) = Raise e /\
  count_chat (trace (snd (generate_response E t w))) = S (count_chat (trace w)).
Proof.
  intros Hc Hs. unfold generate_response, bind.
  change (invoke E (rg_classifier E) [("ticket_text", PStr t)] w) with (classify E t w).
  rewrite Hc.
  pose proof (search_keeps_count E is_chat w1 t 5 (fun _ _ => eq_refl)
                (fun _ _ _ => eq_refl)) as Hk.
  destruct (search E t 5 w1) as [[docs|e'] w2]; simpl in *; [discriminate Hs|].
  injection Hs as ->. split; [reflexivity|].
  change (count_chat (trace w2)) with (count_events is_chat (trace w2)).
  rewrite Hk.
  pose proof (classify_world E w t) as Hw. rewrite Hc in Hw. simpl in Hw. rewrite Hw.
  simpl. change (count_events is_chat ?x) with (count_chat x).
  rewrite count_chat_snoc. simpl. lia.
Qed.

Lemma generate_response_stops_at_retrieval_witness :
  fst (generate_response (faulty_env (mkFaults false false false true false) stub_docs)
         "Where is my refund?" fresh) =
    Raise (mkExn "InternalError" "index unavailable") /\
  count_chat
    (trace (snd (generate_response
                   (faulty_env (mkFaults false false false true false) stub_docs)
                   "Where is my refund?" fresh))) = S (count_chat (trace fresh)).
Proof.
  exact (generate_response_stops_at_retrieval
           (faulty_env (mkFaults false false false true false) stub_docs)
           "Where is my refund?" fresh
           (snd (classify (faulty_env (mkFaults false false false true false) stub_docs)
                   "Where is my refund?" fresh))
           billing_json (mkExn "InternalError" "index unavailable") eq_refl eq_refl).
Defined.

(** X8.  A run of [generate_response] that returns has made its external
    calls in this order and no others: the classifier's model call on the
    ticket, whose reply the parser turned into the classification
    returned; an attach of the store exactly when the field held nothing
    that tests true; one similarity search on the store held or just
    attached, with the ticket as query and [k = 5]; and the response
    model's call, whose inputs carry that classification, the texts of the
    very documents the search returned and the ticket.  The response
    returned is that call's reply and the sources are those of the
    documents the search returned. *)
Theorem generate_response_call_order (E : Env) (t : string) (w w' : World)
    (res : TicketResult) :
  generate_response E t w = (Ok res, w') ->
  exists text h docs attach reply,
    ChatGroq_invoke E (trace w) (chain_llm (create_classifier E))
      (chain_prompt (create_classifier E)) [("ticket_text", PStr t)] = Ok text /\
    JsonOutputParser_parse E TicketClassification text = Ok (classification res) /\
    ((truthy E (trace w ++ [classifier_event E t]) (vectorstore (knowledge_base w)) = true /\
      vectorstore (knowledge_base w) = Some h /\ attach = []) \/
     (truthy E (trace w ++ [classifier_event E t]) (vectorstore (knowledge_base w)) = false /\
      Chroma_init E (trace w ++ [classifier_event E t])
        (persist_directory (knowledge_base w)) (embeddings (knowledge_base w)) = Ok h /\
      attach = [attach_event (knowledge_base w)])) /\
    Chroma_similarity_search E (trace w ++ [classifier_event E t] ++ attach) h t 5 =
      Ok docs /\
    ChatGroq_invoke E
      (trace w ++ [classifier_event E t] ++ attach ++ [EvSimilaritySearch h t 5])
      rg_llm response_prompt (response_inputs (classification res) docs t) = Ok reply /\
    response res = PStr reply /\
    sources res = map source_of docs /\
    trace w' =
      (trace w ++ [classifier_event E t] ++ attach
       ++ [EvSimilaritySearch h t 5;
           EvChatInvoke rg_llm response_prompt
             (response_inputs (classification res) docs t)])%list.
Proof.
  intros Hg. unfold generate_response, bind in Hg.
  change (invoke E (rg_classifier E) [("ticket_text", PStr t)] w)
    with (classify E t w) in Hg.
  rewrite classify_steps in Hg.
  fold (classifier_event E t) in Hg.
  destruct (ChatGroq_invoke E (trace w) _ _ _) as [text|e] eqn:Hm; [|discriminate Hg].
  destruct (JsonOutputParser_parse E TicketClassification text) as [c|e] eqn:Hp;
    [|discriminate Hg].
  set (w1 := mkWorld (knowledge_base w) (trace w ++ [classifier_event E t])) in Hg.
  destruct (search E t 5 w1) as [[docs|e] w2] eqn:Hs; [|discriminate Hg].
  destruct (search_returns_inv E w1 w2 t 5 docs Hs) as [h [attach [Hcase [Hd Ht]]]].
  rewrite respond_steps in Hg.
  destruct (ChatGroq_invoke E (trace w2) rg_llm response_prompt _) as [reply|e] eqn:Hr;
    [|discriminate Hg].
  unfold ret in Hg. injection Hg as <- <-.
  exists text, h, docs, attach, reply. subst w1. simpl in Hcase, Hd, Ht, Hr.
  split; [reflexivity|]. split; [exact Hp|]. split; [exact Hcase|].
  split; [rewrite <- app_assoc in Hd; exact Hd|].
  split; [rewrite Ht in Hr; rewrite <- !app_assoc in Hr; exact Hr|].
  split; [reflexivity|]. split; [reflexivity|].
  cbn [trace]. rewrite Ht. rewrite <- !app_assoc. reflexivity.
Qed.

Lemma generate_response_call_order_witness :
  exists text h docs attach reply,
    ChatGroq_invoke (stub_env stub_docs) (trace fresh)
      (chain_llm (create_classifier (stub_env stub_docs)))
      (chain_prompt (create_classifier (stub_env stub_docs)))
      [("ticket_text", PStr "Where is my refund?")] = Ok text /\
    JsonOutputParser_parse (stub_env stub_docs) TicketClassification text =
      Ok billing_json /\
    ((truthy (stub_env stub_docs)
        (trace fresh ++ [classifier_event (stub_env stub_docs) "Where is my refund?"])
        (vectorstore (knowledge_base fresh)) = true /\
      vectorstore (knowledge_base fresh) = Some h /\ attach = []) \/
     (truthy (stub_env stub_docs)
        (trace fresh ++ [classifier_event (stub_env stub_docs) "Where is my refund?"])
        (vectorstore (knowledge_base fresh)) = false /\
      Chroma_init (stub_env stub_docs)
        (trace fresh ++ [classifier_event (stub_env stub_docs) "Where is my refund?"])
        (persist_directory (knowledge_base fresh)) (embeddings (knowledge_base fresh)) =
        Ok h /\
      attach = [attach_event (knowledge_base fresh)])) /\
    Chroma_similarity_search (stub_env stub_docs)
      (trace fresh ++ [classifier_event (stub_env stub_docs) "Where is my refund?"]
         ++ attach) h "Where is my refund?" 5 = Ok docs /\
    ChatGroq_invoke (stub_env stub_docs)
      (trace fresh ++ [classifier_event (stub_env stub_docs) "Where is my refund?"]
         ++ attach ++ [EvSimilaritySearch h "Where is my refund?" 5])
      rg_llm response_prompt (response_inputs billing_json docs "Where is my refund?") =
      Ok reply /\
    PStr "Your refund is on its way." = PStr reply /\
    [PStr "support_docs/billing.txt"; PStr "support_docs/account.txt"; PStr "unknown"] =
      map source_of docs /\
    trace (snd (generate_response (stub_env stub_docs) "Where is my refund?" fresh)) =
      (trace fresh ++ [classifier_event (stub_env stub_docs) "Where is my refund?"]
       ++ attach
       ++ [EvSimilaritySearch h "Where is my refund?" 5;
           EvChatInvoke rg_llm response_prompt
             (response_inputs billing_json docs "Where is my refund?")])%list.
Proof.
  exact (generate_response_call_order (stub_env stub_docs) "Where is my refund?" fresh
           (snd (generate_response (stub_env stub_docs) "Where is my refund?" fresh))
           (mkTicketResult (PStr "Your refund is on its way.") billing_json
              [PStr "support_docs/billing.txt"; PStr "support_docs/account.txt";
               PStr "unknown"])
           eq_refl).
Defined.

(** X9.  One generator serving any number of tickets: once it holds a
    store that tests true, no ticket changes the KnowledgeBase or attaches
    again, whether tickets succeed or fail. *)
Theorem run_tickets_attach_nothing (E : Env) (tickets : list string) (w : World)
    (h : Handle) :
  vectorstore (knowledge_base w) = Some h ->
  (forall tr, Chroma_bool E tr h = true) ->
  knowledge_base (run_tickets E tickets w) = knowledge_base w /\
  count_attach (trace (run_tickets E tickets w)) = count_attach (trace w).
Proof.
  intros Hv Hb. revert w Hv. induction tickets as [|t tickets IH]; intros w Hv.
  - simpl. split; reflexivity.
  - simpl. change (fold_left _ tickets ?x) with (run_tickets E tickets x).
    destruct (generate_response_attached E w t h Hv Hb) as [Hk Hc].
    destruct (IH (snd (generate_response E t w))) as [Hk' Hc'].
    + rewrite Hk. exact Hv.
    + split; [rewrite Hk'; exact Hk | rewrite Hc'; exact Hc].
Qed.

Lemma run_tickets_attach_nothing_witness :
  knowledge_base
    (run_tickets (stub_env stub_flaky) ["first"; "second"; "third"]
       (mkWorld (with_store (KnowledgeBase_init "./db") 9%nat) [])) =
    with_store (KnowledgeBase_init "./db") 9%nat /\
  count_attach
    (trace (run_tickets (stub_env stub_flaky) ["first"; "second"; "third"]
              (mkWorld (with_store (KnowledgeBase_init "./db") 9%nat) []))) = 0%nat.
Proof.
  exact (run_tickets_attach_nothing (stub_env stub_flaky) ["first"; "second"; "third"]
           (mkWorld (with_store (KnowledgeBase_init "./db") 9%nat) []) 9%nat
           eq_refl (fun _ => eq_refl)).
Defined.

Lemma length_append (s s' : string) :
  String.length (s +:+ s') = (String.length s + String.length s')%nat.
Proof. induction s as [|a s IH]; simpl; [reflexivity | rewrite IH; reflexivity]. Qed.

(** X10.  The context handed to the response model is the texts of the
    documents found, in order, with two line feeds between neighbours and
    none at either end: its length is the sum of the text lengths plus two
    for every document after the first, and it is empty when nothing was
    found. *)
Theorem context_length (c : pyval) (docs : list Document) (t : string) :
  dict_get (response_inputs c docs t) "context" = Some (PStr (context_of docs)) /\
  String.length (context_of docs) =
    (list_sum (map (fun d => String.length (page_content d)) docs)
     + 2 * pred (length docs))%nat.
Proof.
  split; [reflexivity|].
  unfold context_of. induction docs as [|d docs IH]; [reflexivity|].
  destruct docs as [|d' docs].
  - simpl. lia.
  - change (String.concat (nl +:+ nl) (map page_content (d :: d' :: docs)))
      with (page_content d +:+ (nl +:+ nl)
            +:+ String.concat (nl +:+ nl) (map page_content (d' :: docs))).
    rewrite !length_append, IH. simpl. lia.
Qed.

(** ** The classifier's test loop *)

(** X11.  The loop sends the tickets one at a time, in the order of the
    list, and stops at the first exception.  When it returns, the model
    was called once for every ticket, in order, and the result at each
    position is what the classifier returned for the ticket at that
    position.  When it raises, the tickets before the failing one were
    sent in order and classified, the exception is the one raised for the
    failing ticket, which is the last one sent, and the tickets after it
    were never sent.  The KnowledgeBase is not touched. *)
Theorem classify_each_stops_at_first_failure (E : Env) (tickets : list string)
    (w : World) :
  knowledge_base (snd (classify_each E tickets w)) = knowledge_base w /\
  match fst (classify_each E tickets w) with
  | Ok results =>
      length results = length tickets /\
      trace (snd (classify_each E tickets w)) =
        (trace w ++ map (classifier_event E) tickets)%list /\
      forall i t,
        nth_error tickets i = Some t ->
        exists r,
          nth_error results i = Some r /\
          fst (classify E t
                 (mkWorld (knowledge_base w)
                    (trace w ++ map (classifier_event E) (firstn i tickets)))) = Ok r
  | Raise e =>
      exists sent failing unsent,
        tickets = (sent ++ failing :: unsent)%list /\
        trace (snd (classify_each E tickets w)) =
          (trace w ++ map (classifier_event E) (sent ++ [failing]))%list /\
        fst (classify E failing
               (mkWorld (knowledge_base w)
                  (trace w ++ map (classifier_event E) sent))) = Raise e /\
        forall i t,
          nth_error sent i = Some t ->
          exists r,
            fst (classify E t
                   (mkWorld (knowledge_base w)
                      (trace w ++ map (classifier_event E) (firstn i sent)))) = Ok r
  end.
Proof.
  revert w. induction tickets as [|t tickets IH]; intros w.
  - simpl. split; [reflexivity|]. split; [reflexivity|].
    split; [rewrite app_nil_r; reflexivity|].
    intros i t' H. destruct i; discriminate H.
  - cbn [classify_each]. unfold bind.
    pose proof (classify_world E w t) as Hw. fold (classifier_event E t) in Hw.
    assert (Hw0 : mkWorld (knowledge_base w) (trace w ++ []) = w)
      by (rewrite app_nil_r; destruct w; reflexivity).
    destruct (classify E t w) as [[c|e] w1] eqn:Hc; cbn [snd] in Hw; subst w1.
    + specialize (IH (mkWorld (knowledge_base w) (trace w ++ [classifier_event E t]))).
      cbn [knowledge_base trace] in IH.
      destruct (classify_each E tickets _) as [[rs|e] w2]; cbn [fst snd] in *.
      * destruct IH as [Hk [Hl [Htr Hres]]]. unfold ret. cbn [fst snd].
        split; [exact Hk|]. split; [cbn [length]; lia|].
        split; [rewrite Htr, <- app_assoc; reflexivity|].
        intros [|i] t' Hn; cbn [nth_error] in Hn.
        { injection Hn as <-. exists c. split; [reflexivity|].
          cbn [firstn map]. rewrite Hw0, Hc. reflexivity. }
        { destruct (Hres i t' Hn) as [r [Hr1 Hr2]]. exists r.
          split; [exact Hr1|]. rewrite <- app_assoc in Hr2. exact Hr2. }
      * destruct IH as [Hk [sent [failing [unsent [Ht [Htr [Hf Hres]]]]]]].
        split; [exact Hk|].
        exists (t :: sent), failing, unsent.
        split; [rewrite Ht; reflexivity|].
        split; [rewrite Htr, <- app_assoc; reflexivity|].
        split; [rewrite <- app_assoc in Hf; exact Hf|].
        intros [|i] t' Hn; cbn [nth_error] in Hn.
        { injection Hn as <-. exists c. cbn [firstn map]. rewrite Hw0, Hc. reflexivity. }
        { destruct (Hres i t' Hn) as [r Hr]. exists r.
          rewrite <- app_assoc in Hr. exact Hr. }
    + cbn [fst snd]. split; [reflexivity|].
      exists [], t, tickets. split; [reflexivity|]. split; [reflexivity|].
      split; [cbn [map]; rewrite Hw0, Hc; reflexivity|].
      intros i t' Hn. destruct i; discriminate Hn.
Qed.

(** ** The server route and the dashboard *)

(** X12.  The [/generate] route over a sequence of requests.  When every
    exception the generator raises is an instance of [Exception], every
    request is answered: the reply to each request is the generator's
    result when [generate_response] returns, and
    [HTTPException(500, detail)] with the exception's message as detail
    when it raises; a failed request does not stop the following ones,
    which are served by the same generator in the state the earlier
    requests left it.  An exception that is not an instance of [Exception]
    passes through the route unchanged. *)
Theorem serve_answers_every_request (generate : string -> M TicketResult)
    (is_Exception : Exn -> bool) (texts : list string) (w : World) :
  ((forall e, is_Exception e = true) ->
   exists outcomes,
     serve generate is_Exception texts w =
       (Ok outcomes, after_requests generate texts w) /\
     length outcomes = length texts /\
     forall i t,
       nth_error texts i = Some t ->
       nth_error outcomes i =
         Some (outcome_of (fst (generate t (after_requests generate (firstn i texts) w))))) /\
  (forall text e w',
     generate text w = (Raise e, w') ->
     is_Exception e = false ->
     api_generate_response generate is_Exception text w = (Raise e, w')).
Proof.
  split.
  - intros Hex. revert w. induction texts as [|t texts IH]; intros w.
    + exists []. simpl. split; [reflexivity|]. split; [reflexivity|].
      intros i t' H. destruct i; discriminate H.
    + destruct (IH (snd (generate t w))) as [outs [Hs [Hl Hn]]].
      exists (outcome_of (fst (generate t w)) :: outs).
      split; [|split].
      * simpl. unfold bind, api_generate_response.
        change (fold_left _ texts ?x) with (after_requests generate texts x).
        destruct (generate t w) as [[res|e] w1]; simpl in *.
        { rewrite Hs. reflexivity. }
        { rewrite Hex. rewrite Hs. reflexivity. }
      * simpl. lia.
      * intros [|i] t' Hi; simpl in Hi.
        { injection Hi as <-. reflexivity. }
        { simpl. apply Hn. exact Hi. }
  - intros text e w' Hg Hne. unfold api_generate_response. rewrite Hg, Hne. reflexivity.
Qed.

Lemma serve_answers_every_request_witness :
  exists outcomes,
    serve (generate_response (stub_env stub_busy)) (fun _ => true)
      ["Where is my refund?"; "I was charged twice this month"] fresh =
      (Ok outcomes,
       after_requests (generate_response (stub_env stub_busy))
         ["Where is my refund?"; "I was charged twice this month"] fresh) /\
    length outcomes = 2%nat /\
    forall i t,
      nth_error ["Where is my refund?"; "I was charged twice this month"] i = Some t ->
      nth_error outcomes i =
        Some (outcome_of
                (fst (generate_response (stub_env stub_busy) t
                        (after_requests (generate_response (stub_env stub_busy))
                           (firstn i ["Where is my refund?";
                                      "I was charged twice this month"]) fresh)))).
Proof.
  apply (proj1 (serve_answers_every_request (generate_response (stub_env stub_busy))
                  (fun _ => true)
                  ["Where is my refund?"; "I was charged twice this month"] fresh)).
  intros e. reflexivity.
Defined.

(** X13.  The dashboard counter.  Over any sequence of clicks the counter
    never goes down and rises by at most one per click with a non-empty
    text; a click with an empty text changes nothing and calls no
    service; and neither the counter nor the generator depends on what
    drawing the result does, even when drawing raises. *)
Theorem dashboard_counter (E : Env) (render render' : TicketResult -> Result unit)
    (texts : list string) (s : App.Session) :
  App.ticket_count s <= App.ticket_count (App.clicks E render texts s)
    <= App.ticket_count s
       + Z.of_nat (length (List.filter (fun t => negb (String.eqb t "")) texts)) /\
  App.clicks E render texts s = App.clicks E render' texts s /\
  App.process_ticket E render "" s = (Ok App.ShownWarning, s).
Proof.
  split; [|split; [|reflexivity]].
  - revert s. induction texts as [|t texts IH]; intros s.
    + simpl. lia.
    + simpl. change (fold_left _ texts ?x) with (App.clicks E render texts x).
      specialize (IH (snd (App.process_ticket E render t s))).
      unfold App.process_ticket in *.
      destruct (String.eqb t "") eqn:Ht; simpl in *; [lia|].
      destruct (generate_response E t (App.generator s)) as [[res|e] w1]; simpl in *.
      * destruct (render res); simpl in *; lia.
      * lia.
  - revert s. induction texts as [|t texts IH]; intros s; [reflexivity|].
    simpl. change (fold_left _ texts ?x) with (App.clicks E render texts x).
    change (fold_left _ texts ?x) with (App.clicks E render' texts x).
    assert (Hs : snd (App.process_ticket E render t s) =
                 snd (App.process_ticket E render' t s)).
    { unfold App.process_ticket. destruct (String.eqb t ""); [reflexivity|].
      destruct (generate_response E t (App.generator s)) as [[res|e] w1];
        [|reflexivity].
      destruct (render res), (render' res); reflexivity. }
    rewrite Hs. apply IH.
Qed.

(** ** The HTTP dashboard *)

Lemma ascii_lower_idempotent (a : ascii) :
  Client.ascii_lower (Client.ascii_lower a) = Client.ascii_lower a.
Proof. destruct a as [[] [] [] [] [] [] [] []]; reflexivity. Qed.

Lemma lower_idempotent (s : string) : Client.lower (Client.lower s) = Client.lower s.
Proof.
  induction s as [|a s IH]; simpl; [reflexivity|].
  rewrite ascii_lower_idempotent, IH. reflexivity.
Qed.

(** X14.  The priority badge.  A priority that is not a string makes the
    function raise [AttributeError]; for a string the badge depends on the
    lowered text only, so upper and lower case spellings get the same
    badge, and the white badge is given exactly to the texts that are
    none of urgent, high, medium and low once lowered. *)
Theorem priority_color_cases (s : string) :
  Client.get_priority_color (PStr (Client.lower s)) = Client.get_priority_color (PStr s) /\
  (Client.get_priority_color (PStr s) = Ok "⚪" <->
   ~ In (Client.lower s) ["urgent"; "high"; "medium"; "low"]) /\
  (forall v, (forall s', v <> PStr s') ->
             raises_class (Client.get_priority_color v) "AttributeError").
Proof.
  split; [|split].
  - unfold Client.get_priority_color. rewrite lower_idempotent. reflexivity.
  - unfold Client.get_priority_color.
    change (assoc Client.colors (Client.lower s))
      with (if String.eqb "urgent" (Client.lower s) then Some "🔴"
            else if String.eqb "high" (Client.lower s) then Some "🟠"
            else if String.eqb "medium" (Client.lower s) then Some "🟡"
            else if String.eqb "low" (Client.lower s) then Some "🟢"
            else None).
    destruct (String.eqb_spec "urgent" (Client.lower s)) as [H1|H1].
    { split; [intros Hd; vm_compute in Hd; discriminate Hd|].
      intros H. exfalso. apply H. left. exact H1. }
    destruct (String.eqb_spec "high" (Client.lower s)) as [H2|H2].
    { split; [intros Hd; vm_compute in Hd; discriminate Hd|].
      intros H. exfalso. apply H. right. left. exact H2. }
    destruct (String.eqb_spec "medium" (Client.lower s)) as [H3|H3].
    { split; [intros Hd; vm_compute in Hd; discriminate Hd|].
      intros H. exfalso. apply H. right. right. left. exact H3. }
    destruct (String.eqb_spec "low" (Client.lower s)) as [H4|H4].
    { split; [intros Hd; vm_compute in Hd; discriminate Hd|].
      intros H. exfalso. apply H. right. right. right. left. exact H4. }
    split; [|reflexivity]. intros _ [H|[H|[H|[H|[]]]]]; congruence.
  - intros v Hv. unfold raises_class, Client.get_priority_color, Client.attribute_error.
    destruct v; try (eexists; reflexivity). exfalso. apply (Hv s0). reflexivity.
Qed.

Lemma priority_color_cases_witness :
  Client.get_priority_color (PStr "URGENT") = Ok "🔴" /\
  raises_class (Client.get_priority_color PNone) "AttributeError".
Proof.
  split.
  - rewrite <- (proj1 (priority_color_cases "URGENT")). reflexivity.
  - apply (proj2 (proj2 (priority_color_cases "URGENT"))). intros s'. discriminate.
Defined.

Section ScriptFacts.
Variable strip : string -> string.
Variable render : pyval -> Result unit.

(** One action: the history grows by at most as much as the counter. *)
Lemma step_gap (a : Client.Action) (s : Client.SessionState) :
  Z.of_nat (length (Client.tickets_history s)) <= Client.ticket_count s ->
  Z.of_nat (length (Client.tickets_history (Client.step strip render a s)))
    <= Client.ticket_count (Client.step strip render a s).
Proof.
  intros H. destruct a as [t [success result] now|]; simpl; [|lia].
  unfold Client.process.
  destruct (negb (String.eqb (strip t) "")); simpl; [|exact H].
  destruct success; simpl; [|exact H].
  destruct (Client.history_entry now (strip t) result); simpl.
  - rewrite List.length_app. simpl. lia.
  - lia.
Qed.

Lemma step_exact (a : Client.Action) (s : Client.SessionState) :
  Client.builds_entry strip a ->
  Client.ticket_count s = Z.of_nat (length (Client.tickets_history s)) ->
  Client.ticket_count (Client.step strip render a s) =
    Z.of_nat (length (Client.tickets_history (Client.step strip render a s))).
Proof.
  intros Hb H. destruct a as [t [success result] now|]; simpl; [|reflexivity].
  unfold Client.process.
  destruct (negb (String.eqb (strip t) "")); simpl; [|exact H].
  destruct success; simpl; [|exact H].
  simpl in Hb. destruct Hb as [entry He]. rewrite He. simpl.
  rewrite List.length_app. simpl. lia.
Qed.

End ScriptFacts.

(** X15.  The counter and the history of the HTTP dashboard.  Through any
    sequence of processed tickets and clears, in any order, the counter is
    at least the number of history entries; and the two stay equal as long
    as every successful reply is one from which the history entry can be
    built. *)
Theorem counter_covers_history (strip : string -> string)
    (render : pyval -> Result unit) (actions : list Client.Action)
    (s : Client.SessionState) :
  Z.of_nat (length (Client.tickets_history s)) <= Client.ticket_count s ->
  Z.of_nat (length (Client.tickets_history (Client.run strip render actions s)))
    <= Client.ticket_count (Client.run strip render actions s) /\
  (Forall (Client.builds_entry strip) actions ->
   Client.ticket_count s = Z.of_nat (length (Client.tickets_history s)) ->
   Client.ticket_count (Client.run strip render actions s) =
     Z.of_nat (length (Client.tickets_history (Client.run strip render actions s)))).
Proof.
  revert s. induction actions as [|a actions IH]; intros s H.
  - simpl. split; [exact H | intros _ Heq; exact Heq].
  - simpl.
    change (fold_left _ actions ?x) with (Client.run strip render actions x).
    destruct (IH (Client.step strip render a s) (step_gap strip render a s H))
      as [Hle Heq].
    split; [exact Hle|].
    intros Hb Hs. inversion Hb as [|a' l' Ha Hl]; subst.
    apply Heq; [exact Hl|]. apply step_exact; assumption.
Qed.

(** X16.  The counter is raised before the history entry is built.  When
    the server answers 200 with a body that is not a JSON object, the
    processing block raises [AttributeError] with the ticket counted and
    no entry added. *)
Theorem non_object_reply_is_counted_not_recorded (strip : string -> string)
    (render : pyval -> Result unit) (ticket_text now : string) (result : pyval)
    (s : Client.SessionState) :
  strip ticket_text <> "" ->
  (forall d, result <> PDict d) ->
  Client.process strip render ticket_text (true, result) now s =
    (Raise (Client.attribute_error result "get"),
     Client.mkState (Client.ticket_count s + 1) (Client.tickets_history s)
       (Client.api_connected s)).
Proof.
  intros Hne Hnd. unfold Client.process.
  destruct (String.eqb_spec (strip ticket_text) "") as [Heq|_]; [contradiction|].
  simpl. destruct result; try reflexivity. exfalso. apply (Hnd d). reflexivity.
Qed.

(** X17.  The defaults of a history entry.  For a reply that is an object
    without a [classification] and without a [response], the entry built
    records category [unknown], priority [medium], confidence 0 and a
    response length of 0. *)
Theorem history_entry_defaults (now ticket_text : string) (d : list (string * pyval)) :
  dict_get d "classification" = None ->
  dict_get d "response" = None ->
  Client.history_entry now ticket_text (PDict d) =
    Ok (Client.mkEntry now ticket_text (PStr "unknown") (PStr "medium") (PInt 0) 0).
Proof.
  intros Hc Hr. unfold Client.history_entry, Client.py_get. simpl.
  rewrite Hc, Hr. reflexivity.
Qed.

Lemma counter_covers_history_witness :
  Z.of_nat
    (length
       (Client.tickets_history
          (Client.run (fun s => s) (fun _ => Ok tt)
             [ Client.Process "help" (true, PList []) "2024-01-01T10:00:00";
               Client.Process "refund" (true, PDict [("response", PStr "Done.")])
                 "2024-01-01T10:01:00";
               Client.ClearHistory;
               Client.Process "again" (true, PDict [("classification", PNone)])
                 "2024-01-01T10:02:00" ]
             Client.initial_state)))
    <= Client.ticket_count
         (Client.run (fun s => s) (fun _ => Ok tt)
            [ Client.Process "help" (true, PList []) "2024-01-01T10:00:00";
              Client.Process "refund" (true, PDict [("response", PStr "Done.")])
                "2024-01-01T10:01:00";
              Client.ClearHistory;
              Client.Process "again" (true, PDict [("classification", PNone)])
                "2024-01-01T10:02:00" ]
            Client.initial_state).
Proof.
  apply (proj1 (counter_covers_history (fun s => s) (fun _ => Ok tt)
                  [ Client.Process "help" (true, PList []) "2024-01-01T10:00:00";
                    Client.Process "refund" (true, PDict [("response", PStr "Done.")])
                      "2024-01-01T10:01:00";
                    Client.ClearHistory;
                    Client.Process "again" (true, PDict [("classification", PNone)])
                      "2024-01-01T10:02:00" ]
                  Client.initial_state ltac:(simpl; lia))).
Defined.

Lemma non_object_reply_is_counted_not_recorded_witness :
  Client.process (fun s => s) (fun _ => Ok tt) "help" (true, PList [])
    "2024-01-01T10:00:00" Client.initial_state =
    (Raise (mkExn "AttributeError" "'list' object has no attribute 'get'"),
     Client.mkState 1 [] false).
Proof.
  apply (non_object_reply_is_counted_not_recorded (fun s => s) (fun _ => Ok tt)
           "help" "2024-01-01T10:00:00" (PList []) Client.initial_state).
  - discriminate.
  - intros d. discriminate.
Defined.

Lemma history_entry_defaults_witness :
  Client.history_entry "2024-01-01T10:00:00" "help" (PDict [("sources", PList [])]) =
    Ok (Client.mkEntry "2024-01-01T10:00:00" "help" (PStr "unknown") (PStr "medium")
          (PInt 0) 0).
Proof.
  apply (history_entry_defaults "2024-01-01T10:00:00" "help" [("sources", PList [])]);
    reflexivity.
Defined.
